(** * OpenAPI to Postman collection compiler (tools/gen_postman_collection.py)

    A shallow embedding of [get_request_body_schema], [create_postman_request]
    and [create_postman_collection].  The parsed OpenAPI document and the
    produced collection are both plain Python objects built from [None],
    booleans, integers, strings, lists and insertion-ordered dictionaries, so
    both are values of one type [json].  Python exceptions are an explicit
    error result.

    Modelling conventions:
    - strings are ASCII: [str.lower], [str.upper] and [str.title] act on the
      letters a-z / A-Z and leave every other character alone;
    - numbers are integers (the code only ever tests a number for truth or
      formats it);
    - dictionary keys are strings, as in a document read from JSON;
    - a dictionary is an association list in insertion order; lookups take the
      first binding. *)

From Stdlib Require Import List String Ascii ZArith Bool Lia Arith DecimalString.
Import ListNotations.
Open Scope string_scope.

Set Implicit Arguments.
Set Warnings "-register-all".

(** ** Values *)

Inductive json : Type :=
| JNull
| JBool (b : bool)
| JNum (n : Z)
| JStr (s : string)
| JList (l : list json)
| JDict (d : list (string * json)).

(** ** Exceptions *)

Inductive exn : Type := KeyError | TypeError | AttributeError.

Inductive result (A : Type) : Type :=
| Ok (a : A)
| Raise (e : exn).

Arguments Ok {A} a.
Arguments Raise {A} e.

Definition bind {A B : Type} (r : result A) (k : A -> result B) : result B :=
  match r with
  | Ok a => k a
  | Raise e => Raise e
  end.

Notation "x <- c ;; k" := (bind c (fun x => k))
  (at level 61, c at next level, right associativity).

(** A [for] loop whose body may raise: the accumulator is threaded through the
    elements in order and the first exception ends the loop. *)
Fixpoint for_each {A S : Type} (body : S -> A -> result S) (l : list A) (s : S)
  : result S :=
  match l with
  | [] => Ok s
  | a :: l' => s' <- body s a ;; for_each body l' s'
  end.

(** A loop that appends one built value per element. *)
Fixpoint collect {A B : Type} (f : A -> result B) (l : list A) : result (list B) :=
  match l with
  | [] => Ok []
  | a :: l' => b <- f a ;; bs <- collect f l' ;; Ok (b :: bs)
  end.

(** ** Strings *)

Module Str.

Definition dquote : ascii := "034"%char.
Definition newline : ascii := "010"%char.

Definition is_lower (c : ascii) : bool :=
  let n := nat_of_ascii c in (97 <=? n)%nat && (n <=? 122)%nat.

Definition is_upper (c : ascii) : bool :=
  let n := nat_of_ascii c in (65 <=? n)%nat && (n <=? 90)%nat.

Definition to_lower (c : ascii) : ascii :=
  if is_upper c then ascii_of_nat (nat_of_ascii c + 32) else c.

Definition to_upper (c : ascii) : ascii :=
  if is_lower c then ascii_of_nat (nat_of_ascii c - 32) else c.

Fixpoint map (f : ascii -> ascii) (s : string) : string :=
  match s with
  | EmptyString => EmptyString
  | String c s' => String (f c) (map f s')
  end.

(** [s.lower()] and [s.upper()] *)
Definition lower (s : string) : string := map to_lower s.
Definition upper (s : string) : string := map to_upper s.

(** [s.title()]: a letter that follows a letter is lower-cased, a letter
    that starts a run of letters is upper-cased. *)
Fixpoint title_from (previous_is_cased : bool) (s : string) : string :=
  match s with
  | EmptyString => EmptyString
  | String c s' =>
      if is_lower c || is_upper c
      then String (if previous_is_cased then to_lower c else to_upper c)
                  (title_from true s')
      else String c (title_from false s')
  end.

Definition title (s : string) : string := title_from false s.

(** [s.replace(a, b)] for single characters. *)
Definition replace (a b : ascii) (s : string) : string :=
  map (fun c => if Ascii.eqb c a then b else c) s.

(** [s.split(sep)] for a single-character separator: never empty, and
    [split sep ""] is [[""]]. *)
Fixpoint split (sep : ascii) (s : string) : list string :=
  match s with
  | EmptyString => [EmptyString]
  | String c s' =>
      if Ascii.eqb c sep then EmptyString :: split sep s'
      else match split sep s' with
           | [] => [String c EmptyString]
           | seg :: segs => String c seg :: segs
           end
  end.

(** [sep.join(parts)] *)
Definition join (sep : string) (parts : list string) : string :=
  String.concat sep parts.

Definition startswith (c : ascii) (s : string) : bool :=
  match s with
  | EmptyString => false
  | String c' _ => Ascii.eqb c' c
  end.

Fixpoint endswith (c : ascii) (s : string) : bool :=
  match s with
  | EmptyString => false
  | String c' EmptyString => Ascii.eqb c' c
  | String _ s' => endswith c s'
  end.

(** [s[:-1]] *)
Fixpoint drop_last (s : string) : string :=
  match s with
  | EmptyString => EmptyString
  | String _ EmptyString => EmptyString
  | String c s' => String c (drop_last s')
  end.

(** [s[1:-1]] *)
Definition strip_ends (s : string) : string :=
  match s with
  | EmptyString => EmptyString
  | String _ s' => drop_last s'
  end.

(** [needle in hay] *)
Fixpoint contains (needle hay : string) : bool :=
  String.prefix needle hay ||
  match hay with
  | EmptyString => false
  | String _ hay' => contains needle hay'
  end.

(** The characters of a string, as iteration yields them. *)
Fixpoint chars (s : string) : list string :=
  match s with
  | EmptyString => []
  | String c s' => String c EmptyString :: chars s'
  end.

Definition is_empty (s : string) : bool :=
  match s with
  | EmptyString => true
  | _ => false
  end.

End Str.

(** ** Python object operations *)

Module Py.

Fixpoint assoc (key : string) (d : list (string * json)) : option json :=
  match d with
  | [] => None
  | (k, v) :: d' => if String.eqb k key then Some v else assoc key d'
  end.

(** [d[key] = v]: the value of a present key is replaced in place, a new key
    goes last. *)
Fixpoint setitem (key : string) (v : json) (d : list (string * json))
  : list (string * json) :=
  match d with
  | [] => [(key, v)]
  | (k, x) :: d' =>
      if String.eqb k key then (k, v) :: d' else (k, x) :: setitem key v d'
  end.

(** Truth value of an object, as [if x:] tests it. *)
Definition truthy (v : json) : bool :=
  match v with
  | JNull => false
  | JBool b => b
  | JNum n => negb (Z.eqb n 0)
  | JStr s => negb (Str.is_empty s)
  | JList l => match l with [] => false | _ => true end
  | JDict d => match d with [] => false | _ => true end
  end.

(** [v.get(key, default)]: only dictionaries have the method. *)
Definition get (key : string) (default : json) (v : json) : result json :=
  match v with
  | JDict d => match assoc key d with
               | Some x => Ok x
               | None => Ok default
               end
  | _ => Raise AttributeError
  end.

(** [v[key]] for a string key. *)
Definition getitem (key : string) (v : json) : result json :=
  match v with
  | JDict d => match assoc key d with
               | Some x => Ok x
               | None => Raise KeyError
               end
  | _ => Raise TypeError
  end.

Definition is_str (key : string) (v : json) : bool :=
  match v with
  | JStr s => String.eqb s key
  | _ => false
  end.

(** [key in v] for a string key: key membership in a dictionary, element
    membership in a list, substring test in a string. *)
Definition contains (key : string) (v : json) : result bool :=
  match v with
  | JDict d => Ok (match assoc key d with Some _ => true | None => false end)
  | JList l => Ok (existsb (is_str key) l)
  | JStr s => Ok (Str.contains key s)
  | _ => Raise TypeError
  end.

(** The elements a [for x in v] loop visits. *)
Definition iter (v : json) : result (list json) :=
  match v with
  | JList l => Ok l
  | JStr s => Ok (List.map JStr (Str.chars s))
  | JDict d => Ok (List.map (fun kv => JStr (fst kv)) d)
  | _ => Raise TypeError
  end.

(** [v.items()] *)
Definition items (v : json) : result (list (string * json)) :=
  match v with
  | JDict d => Ok d
  | _ => Raise AttributeError
  end.

(** [v == key] for a string literal [key]. *)
Definition eq_str (v : json) (key : string) : bool := is_str key v.

(** [v.title()] *)
Definition title (v : json) : result string :=
  match v with
  | JStr s => Ok (Str.title s)
  | _ => Raise AttributeError
  end.

(** Objects usable as dictionary keys. *)
Definition hashable (v : json) : bool :=
  match v with
  | JList _ | JDict _ => false
  | _ => true
  end.

(** Equality of dictionary keys: [True == 1] and [False == 0]. *)
Definition key_eqb (a b : json) : bool :=
  match a, b with
  | JNull, JNull => true
  | JStr s, JStr t => String.eqb s t
  | JBool x, JBool y => Bool.eqb x y
  | JNum x, JNum y => Z.eqb x y
  | JBool x, JNum y | JNum y, JBool x => Z.eqb (Z.b2z x) y
  | _, _ => false
  end.

(** [repr(s)] of a string. *)
Definition hex_digit (n : nat) : ascii :=
  if (n <? 10)%nat then ascii_of_nat (48 + n) else ascii_of_nat (87 + n).

Definition backslash : ascii := "092"%char.

Definition escape_char (quote c : ascii) : string :=
  let n := nat_of_ascii c in
  if Ascii.eqb c quote || Ascii.eqb c backslash
  then String backslash (String c EmptyString)
  else if (n =? 9)%nat then String backslash "t"
  else if (n =? 10)%nat then String backslash "n"
  else if (n =? 13)%nat then String backslash "r"
  else if (n <? 32)%nat || (n =? 127)%nat
  then String backslash (String "x"%char
         (String (hex_digit (n / 16)) (String (hex_digit (n mod 16)) EmptyString)))
  else String c EmptyString.

Fixpoint escape (quote : ascii) (s : string) : string :=
  match s with
  | EmptyString => EmptyString
  | String c s' => escape_char quote c ++ escape quote s'
  end.

Fixpoint has_char (c : ascii) (s : string) : bool :=
  match s with
  | EmptyString => false
  | String c' s' => Ascii.eqb c' c || has_char c s'
  end.

Definition repr_str (s : string) : string :=
  let quote := if has_char "'"%char s && negb (has_char Str.dquote s)
               then Str.dquote else "'"%char in
  String quote (escape quote s ++ String quote EmptyString).

(** [repr(v)] *)
Fixpoint repr (v : json) : string :=
  match v with
  | JNull => "None"
  | JBool true => "True"
  | JBool false => "False"
  | JNum n => NilZero.string_of_int (Z.to_int n)
  | JStr s => repr_str s
  | JList l => "[" ++ Str.join ", " (List.map repr l) ++ "]"
  | JDict d =>
      "{" ++ Str.join ", "
               (List.map (fun kv => repr_str (fst kv) ++ ": " ++ repr (snd kv)) d)
          ++ "}"
  end.

(** What an f-string substitutes for [{v}]. *)
Definition format (v : json) : string :=
  match v with
  | JStr s => s
  | _ => repr v
  end.

End Py.

(** ** The compiler *)

(** [get_request_body_schema(schema_ref, components)] *)
Definition get_request_body_schema (schema_ref components : json) : result json :=
  if negb (Py.truthy schema_ref) then Ok JNull
  else
    has_ref <- Py.contains "$ref" schema_ref ;;
    if negb has_ref then Ok JNull
    else
      ref <- Py.getitem "$ref" schema_ref ;;
      match ref with
      | JStr r =>
          let ref_path := List.last (Str.split "/"%char r) EmptyString in
          schemas <- Py.get "schemas" (JDict []) components ;;
          Py.get ref_path JNull schemas
      | _ => Raise AttributeError
      end.

(** One path segment of the URL: [{name}] becomes [{{name}}]. *)
Definition url_part (part : string) : string :=
  if Str.startswith "{"%char part && Str.endswith "}"%char part
  then "{{" ++ Str.strip_ends part ++ "}}"
  else part.

Definition url_parts (path : string) : list string :=
  List.map url_part (Str.split "/"%char path).

Definition scheme : string := "{{scheme}}".
Definition host : string := "{{host}}".
Definition port : string := "{{port}}".

Definition base_url : string := scheme ++ "://" ++ host ++ ":" ++ port.

Definition raw_url (path : string) : string :=
  base_url ++ Str.join "/" (url_parts path).

(** Body of the loop over [operation['parameters']]. *)
Definition add_query_param (query_params : list json) (param : json)
  : result (list json) :=
  location <- Py.get "in" JNull param ;;
  if Py.eq_str location "query" then
    key <- Py.getitem "name" param ;;
    required <- Py.get "required" (JBool false) param ;;
    value <- (if Py.truthy required
              then name <- Py.getitem "name" param ;;
                   Ok (JStr ("{{" ++ Py.format name ++ "}}"))
              else Ok (JStr "")) ;;
    description <- Py.get "description" (JStr "") param ;;
    Ok (query_params ++
        [JDict [("key", key); ("value", value); ("description", description)]])%list
  else Ok query_params.

Definition build_query_params (operation : json) : result (list json) :=
  declared <- Py.contains "parameters" operation ;;
  if declared then
    parameters <- Py.getitem "parameters" operation ;;
    params <- Py.iter parameters ;;
    for_each add_query_param params []
  else Ok [].

Definition api_key_header : json :=
  JDict [("key", JStr "X-API-Key"); ("value", JStr "{{apiKey}}");
         ("type", JStr "text")].

Definition bearer_header : json :=
  JDict [("key", JStr "Authorization"); ("value", JStr "Bearer {{bearerToken}}");
         ("type", JStr "text")].

(** Body of the loop over [operation['security']]. *)
Definition add_auth_headers (headers : list json) (security_req : json)
  : result (list json) :=
  api_key <- Py.contains "ApiKeyAuth" security_req ;;
  let headers := if api_key then (headers ++ [api_key_header])%list else headers in
  bearer <- Py.contains "BearerAuth" security_req ;;
  Ok (if bearer then (headers ++ [bearer_header])%list else headers).

Definition build_headers (operation : json) : result (list json) :=
  secured <- Py.contains "security" operation ;;
  if secured then
    security <- Py.getitem "security" operation ;;
    reqs <- Py.iter security ;;
    for_each add_auth_headers reqs []
  else Ok [].

(** [json.dumps({"example": "Replace with actual request data"}, indent=2)] *)
Definition example_payload : string :=
  "{" ++ String Str.newline
  ("  " ++ String Str.dquote
  ("example" ++ String Str.dquote
  (": " ++ String Str.dquote
  ("Replace with actual request data" ++ String Str.dquote
  (String Str.newline "}"))))).

Definition generic_body : json :=
  JDict [("mode", JStr "raw");
         ("raw", JStr example_payload);
         ("options", JDict [("raw", JDict [("language", JStr "json")])])].

(** The request body: [None] unless the operation has an [application/json]
    content entry whose [schema] is true. *)
Definition build_body (operation : json) : result json :=
  has_body <- Py.contains "requestBody" operation ;;
  if has_body then
    request_body <- Py.getitem "requestBody" operation ;;
    content <- Py.get "content" (JDict []) request_body ;;
    has_json <- Py.contains "application/json" content ;;
    if has_json then
      media <- Py.getitem "application/json" content ;;
      schema <- Py.get "schema" JNull media ;;
      if Py.truthy schema then Ok generic_body else Ok JNull
    else Ok JNull
  else Ok JNull.

(** [create_postman_request(path, method, operation, components, base_url_vars)] *)
Definition create_postman_request
  (path method : string) (operation components base_url_vars : json)
  : result json :=
  let parts := url_parts path in
  query_params <- build_query_params operation ;;
  headers <- build_headers operation ;;
  body <- build_body operation ;;
  let request :=
    [("method", JStr (Str.upper method));
     ("header", JList headers);
     ("url", JDict [("raw", JStr (raw_url path));
                    ("host", JList [JStr base_url]);
                    ("path", JList (List.map JStr
                               (List.filter (fun p => negb (Str.is_empty p)) parts)));
                    ("query", JList query_params)])] in
  let request := if Py.truthy body then (request ++ [("body", body)])%list else request in
  name <- Py.get "summary" (JStr (Str.upper method ++ " " ++ path)) operation ;;
  Ok (JDict [("name", name); ("request", JDict request); ("response", JList [])]).

(** *** Grouping by tag *)

Definition http_methods : list string :=
  ["get"; "post"; "put"; "delete"; "patch"; "head"; "options"].

Definition recognized (method : string) : bool :=
  existsb (String.eqb (Str.lower method)) http_methods.

(** A [(path, method, operation)] triple. *)
Definition triple : Type := (string * string * json)%type.

(** [tag_groups]: tag to the operations carrying it, in insertion order. *)
Definition groups : Type := list (json * list triple).

(** [if tag not in tag_groups: tag_groups[tag] = []] followed by
    [tag_groups[tag].append(op)]. *)
Fixpoint add_to_group (tag : json) (op : triple) (tag_groups : groups) : groups :=
  match tag_groups with
  | [] => [(tag, [op])]
  | (k, ops) :: rest =>
      if Py.key_eqb k tag then (k, (ops ++ [op])%list) :: rest
      else (k, ops) :: add_to_group tag op rest
  end.

(** Body of [for tag in tags]. *)
Definition add_tag (op : triple) (tag_groups : groups) (tag : json) : result groups :=
  if Py.hashable tag then Ok (add_to_group tag op tag_groups)
  else Raise TypeError.

(** Body of [for method, operation in methods.items()]. *)
Definition add_operation (path : string) (tag_groups : groups)
  (entry : string * json) : result groups :=
  let (method, operation) := entry in
  if negb (recognized method) then Ok tag_groups
  else
    tags <- Py.get "tags" (JList [JStr "untagged"]) operation ;;
    tag_list <- Py.iter tags ;;
    for_each (add_tag (path, method, operation)) tag_list tag_groups.

(** Body of [for path, methods in paths.items()]. *)
Definition add_path (tag_groups : groups) (entry : string * json) : result groups :=
  let (path, methods) := entry in
  operations <- Py.items methods ;;
  for_each (add_operation path) operations tag_groups.

Definition group_operations (openapi_spec : json) : result groups :=
  paths <- Py.get "paths" (JDict []) openapi_spec ;;
  entries <- Py.items paths ;;
  for_each add_path entries [].

(** *** Folders and the collection *)

Definition build_request (openapi_spec : json) (op : triple) : result json :=
  let '(path, method, operation) := op in
  components <- Py.get "components" (JDict []) openapi_spec ;;
  create_postman_request path method operation components (JDict []).

Definition folder_name (tag : string) : string :=
  Str.replace "-"%char " "%char (Str.title tag).

(** Body of [for tag, operations in tag_groups.items()]. *)
Definition build_folder (openapi_spec : json) (group : json * list triple)
  : result json :=
  let (tag, operations) := group in
  folder_items <- collect (build_request openapi_spec) operations ;;
  titled <- Py.title tag ;;
  Ok (JDict [("name", JStr (Str.replace "-"%char " "%char titled));
             ("item", JList folder_items)]).

Definition variable (key value : string) : json :=
  JDict [("key", JStr key); ("value", JStr value); ("type", JStr "string")].

Definition collection_variables : list json :=
  [variable "scheme" "http"; variable "host" "localhost"; variable "port" "8010";
   variable "apiKey" ""; variable "bearerToken" ""].

Definition collection_schema : string :=
  "https://schema.getpostman.com/json/collection/v2.1.0/collection.json".

(** [create_postman_collection(openapi_spec)] *)
Definition create_postman_collection (openapi_spec : json) : result json :=
  tag_groups <- group_operations openapi_spec ;;
  items <- collect (build_folder openapi_spec) tag_groups ;;
  info <- Py.getitem "info" openapi_spec ;;
  title <- Py.getitem "title" info ;;
  info' <- Py.getitem "info" openapi_spec ;;
  description <- Py.getitem "description" info' ;;
  Ok (JDict [("info", JDict [("name", title);
                             ("description", description);
                             ("schema", JStr collection_schema)]);
             ("item", JList items);
             ("variable", JList collection_variables)]).

(** ** Reading documents and collections

    Nothing below translates code.  These definitions read a document or a
    collection the way the specification speaks of it (the items of a folder,
    the operations with a recognized method, the tags of an operation in
    traversal order), and the properties compare what the compiler computes
    with them. *)

(** [v[key]] when it is there. *)
Definition field (key : string) (v : json) : option json :=
  match v with
  | JDict d => Py.assoc key d
  | _ => None
  end.

Definition elements (v : option json) : list json :=
  match v with
  | Some (JList l) => l
  | _ => []
  end.

(** The [request] object of a Collection Item and its parts. *)
Definition item_request (item : json) : json :=
  match field "request" item with
  | Some r => r
  | None => JNull
  end.

Definition request_method (item : json) : option json :=
  field "method" (item_request item).

Definition request_headers (item : json) : list json :=
  elements (field "header" (item_request item)).

Definition request_body (item : json) : option json :=
  field "body" (item_request item).

Definition request_url (item : json) : json :=
  match field "url" (item_request item) with
  | Some u => u
  | None => JNull
  end.

Definition request_raw_url (item : json) : option json :=
  field "raw" (request_url item).

Definition request_query (item : json) : list json :=
  elements (field "query" (request_url item)).

(** Folders of a collection, items of a folder. *)
Definition collection_folders (collection : json) : list json :=
  elements (field "item" collection).

Definition folder_items (folder : json) : list json :=
  elements (field "item" folder).

Definition total_items (collection : json) : nat :=
  list_sum (List.map (fun folder => List.length (folder_items folder))
                     (collection_folders collection)).

(** The entries of a dictionary (nothing for any other object). *)
Definition dict_items (v : json) : list (string * json) :=
  match v with
  | JDict d => d
  | _ => []
  end.

Definition document_paths (openapi_spec : json) : json :=
  match field "paths" openapi_spec with
  | Some p => p
  | None => JDict []
  end.

(** The (path, method, operation) triples with a recognized method, paths in
    declaration order and methods in per-path order. *)
Definition extract_operations (openapi_spec : json) : list triple :=
  flat_map
    (fun pe : string * json =>
       flat_map
         (fun me : string * json =>
            if recognized (fst me) then [(fst pe, fst me, snd me)] else [])
         (dict_items (snd pe)))
    (dict_items (document_paths openapi_spec)).

(** The tags of an operation; the synthetic ["untagged"] when it has none. *)
Definition operation_tags (operation : json) : list json :=
  match field "tags" operation with
  | Some tags => match Py.iter tags with
                 | Ok l => l
                 | Raise _ => []
                 end
  | None => [JStr "untagged"]
  end.

(** Every (tag, operation) membership, in traversal order. *)
Definition tag_stream (openapi_spec : json) : list (json * triple) :=
  flat_map (fun op : triple => List.map (fun tag => (tag, op)) (operation_tags (snd op)))
           (extract_operations openapi_spec).

(** The distinct keys of a sequence in order of first occurrence. *)
Fixpoint first_occurrences_from (seen keys : list json) : list json :=
  match keys with
  | [] => []
  | k :: keys' =>
      if existsb (fun s => Py.key_eqb s k) seen
      then first_occurrences_from seen keys'
      else k :: first_occurrences_from (seen ++ [k]) keys'
  end.

Definition first_occurrences (keys : list json) : list json :=
  first_occurrences_from [] keys.

(** The operations carrying [tag], in traversal order. *)
Definition tagged (tag : json) (stream : list (json * triple)) : list triple :=
  List.map snd (List.filter (fun e => Py.key_eqb tag (fst e)) stream).

(** The schema of the [application/json] request body an operation declares. *)
Definition declared_json_schema (operation : json) : option json :=
  match field "requestBody" operation with
  | Some request_body =>
      match field "content" request_body with
      | Some content =>
          match field "application/json" content with
          | Some media => field "schema" media
          | None => None
          end
      | None => None
      end
  | None => None
  end.

(** The fields of the [request] object that do not depend on the body. *)
Definition request_fields (path method : string) (headers query_params : list json)
  : list (string * json) :=
  [("method", JStr (Str.upper method));
   ("header", JList headers);
   ("url", JDict [("raw", JStr (raw_url path));
                  ("host", JList [JStr base_url]);
                  ("path", JList (List.map JStr
                             (List.filter (fun p => negb (Str.is_empty p))
                                          (url_parts path))));
                  ("query", JList query_params)])].

(** What [build_body] returns, read off the document. *)
Definition expected_body (operation : json) : json :=
  match declared_json_schema operation with
  | Some schema => if Py.truthy schema then generic_body else JNull
  | None => JNull
  end.

(** [key in v], false when the test itself would raise. *)
Definition has_key (key : string) (v : json) : bool :=
  match Py.contains key v with
  | Ok b => b
  | Raise _ => false
  end.

(** The headers one security requirement contributes. *)
Definition requirement_headers (security_req : json) : list json :=
  ((if has_key "ApiKeyAuth" security_req then [api_key_header] else []) ++
   (if has_key "BearerAuth" security_req then [bearer_header] else []))%list.

(** An [Authorization: Bearer {{bearerToken}}] header entry. *)
Definition is_authorization_header (header : json) : bool :=
  match field "key" header, field "value" header with
  | Some (JStr k), Some (JStr v) =>
      String.eqb k "Authorization" && String.eqb v "Bearer {{bearerToken}}"
  | _, _ => false
  end.

(** The tag memberships one [methods] entry contributes. *)
Definition operation_stream (path : string) (entry : string * json)
  : list (json * triple) :=
  if recognized (fst entry)
  then List.map (fun tag => (tag, (path, fst entry, snd entry)))
                (operation_tags (snd entry))
  else [].

(** Appending a sequence of tag memberships to [tag_groups]. *)
Definition add_stream (tag_groups : groups) (stream : list (json * triple)) : groups :=
  fold_left (fun g e => add_to_group (fst e) (snd e) g) stream tag_groups.

Definition group_keys (tag_groups : groups) : list json := List.map fst tag_groups.

Definition group_size (tag_groups : groups) : nat :=
  list_sum (List.map (fun g => List.length (snd g)) tag_groups).

(** No two keys of the list are equal as dictionary keys. *)
Fixpoint distinct_keys (keys : list json) : bool :=
  match keys with
  | [] => true
  | k :: keys' => negb (existsb (fun k' => Py.key_eqb k k') keys') && distinct_keys keys'
  end.

(** Dictionary keys up to [True == 1] and [False == 0]. *)
Definition key_norm (v : json) : json :=
  match v with
  | JBool b => JNum (Z.b2z b)
  | _ => v
  end.

(** Every tag of the sequence can be a dictionary key. *)
Definition all_hashable (stream : list (json * triple)) : bool :=
  forallb (fun e => Py.hashable (fst e)) stream.

(** [tag_groups] is the grouping of [stream]: each key holds exactly the
    operations carrying it, no key occurs twice, and every tag has its key. *)
Definition grouped (stream : list (json * triple)) (tag_groups : groups) : Prop :=
  Forall (fun g => snd g = tagged (fst g) stream) tag_groups /\
  distinct_keys (group_keys tag_groups) = true /\
  Forall (fun e => existsb (fun k => Py.key_eqb k (fst e)) (group_keys tag_groups) = true)
         stream.

(** ** Further readings of documents and items *)

Definition request_path (item : json) : list json :=
  elements (field "path" (request_url item)).

Definition request_host (item : json) : option json :=
  field "host" (request_url item).

Definition or_default (default : json) (v : option json) : json :=
  match v with
  | Some x => x
  | None => default
  end.

(** A parameter entry located in the query string. *)
Definition is_query_param (param : json) : bool :=
  Py.eq_str (or_default JNull (field "in" param)) "query".

(** The query entry of a named parameter: a placeholder named after the
    parameter when it is required, the empty string otherwise. *)
Definition query_entry (param : json) : json :=
  let name := or_default JNull (field "name" param) in
  JDict [("key", name);
         ("value",
          JStr (if Py.truthy (or_default (JBool false) (field "required" param))
                then "{{" ++ Py.format name ++ "}}" else ""));
         ("description", or_default (JStr "") (field "description" param))].

(** The methods a built request can carry. *)
Definition http_verbs : list string :=
  ["GET"; "POST"; "PUT"; "DELETE"; "PATCH"; "HEAD"; "OPTIONS"].

(** No segment of the path is wrapped in braces. *)
Definition no_placeholder (path : string) : bool :=
  forallb (fun part => negb (Str.startswith "{"%char part && Str.endswith "}"%char part))
          (Str.split "/"%char path).

Definition is_dict (v : json) : bool :=
  match v with
  | JDict _ => true
  | _ => false
  end.

Definition is_string (v : json) : bool :=
  match v with
  | JStr _ => true
  | _ => false
  end.

Definition present (v : option json) : bool :=
  match v with
  | Some _ => true
  | None => false
  end.

(** [v] is absent or satisfies [ok]. *)
Definition absent_or (ok : json -> bool) (v : option json) : bool :=
  match v with
  | Some x => ok x
  | None => true
  end.

Definition list_of (ok : json -> bool) (v : json) : bool :=
  match v with
  | JList l => forallb ok l
  | _ => false
  end.

Definition dict_of (ok : string * json -> bool) (v : json) : bool :=
  match v with
  | JDict d => forallb ok d
  | _ => false
  end.

(** A parameter entry the builder accepts: a dictionary that has a [name]
    if it is a query parameter. *)
Definition well_formed_parameter (param : json) : bool :=
  is_dict param && (negb (is_query_param param) || present (field "name" param)).

(** A request body the builder accepts: a dictionary whose [content], if
    any, is a dictionary whose [application/json] entry, if any, is one too. *)
Definition well_formed_request_body (request_body : json) : bool :=
  is_dict request_body &&
  absent_or (fun content =>
               is_dict content &&
               absent_or is_dict (field "application/json" content))
            (field "content" request_body).

(** An operation object as OpenAPI shapes it, as far as the compiler looks. *)
Definition well_formed_operation (operation : json) : bool :=
  is_dict operation &&
  absent_or (list_of well_formed_parameter) (field "parameters" operation) &&
  absent_or (list_of is_dict) (field "security" operation) &&
  absent_or well_formed_request_body (field "requestBody" operation) &&
  absent_or (list_of is_string) (field "tags" operation).

Definition well_formed_path_item (methods : json) : bool :=
  dict_of (fun entry => negb (recognized (fst entry)) || well_formed_operation (snd entry))
          methods.

Definition well_formed_document (openapi_spec : json) : bool :=
  is_dict openapi_spec &&
  absent_or (dict_of (fun entry => well_formed_path_item (snd entry)))
            (field "paths" openapi_spec) &&
  match field "info" openapi_spec with
  | Some info => is_dict info && present (field "title" info) &&
                 present (field "description" info)
  | None => false
  end.

(** A path item without its entries under unrecognized keys. *)
Definition recognized_entries (entry : string * json) : string * json :=
  (fst entry,
   match snd entry with
   | JDict methods => JDict (filter (fun e => recognized (fst e)) methods)
   | other => other
   end).

(** The hyphen-to-space replacement of folder names, on one character. *)
Definition unhyphen (c : ascii) : ascii :=
  if Ascii.eqb c "-"%char then " "%char else c.

(** ** Letter case, as the claims speak of it

    Stated on character codes, independently of [Str.lower] and [Str.upper]. *)







(** Every character is in the ASCII range, where the casing of this model is
    the casing of Python strings. *)
Fixpoint is_ascii (s : string) : bool :=
  match s with
  | EmptyString => true
  | String c s' => (nat_of_ascii c <? 128)%nat && is_ascii s'
  end.

(** An operation object the request builder accepts: a well-formed
    operation, whatever its [tags], which the builder does not read. *)
Definition buildable_operation (operation : json) : bool :=
  is_dict operation &&
  absent_or (list_of well_formed_parameter) (field "parameters" operation) &&
  absent_or (list_of is_dict) (field "security" operation) &&
  absent_or well_formed_request_body (field "requestBody" operation).

(** ** Sample documents *)

Module Samples.

Definition info : string * json :=
  ("info", JDict [("title", JStr "API"); ("description", JStr "Sample")]).

Definition document (paths : list (string * json)) : json :=
  JDict [info; ("paths", JDict paths)].

Definition compiled (openapi_spec : json) : json :=
  match create_postman_collection openapi_spec with
  | Ok collection => collection
  | Raise _ => JNull
  end.

Definition built (path method : string) (operation : json) : json :=
  match create_postman_request path method operation (JDict []) (JDict []) with
  | Ok item => item
  | Raise _ => JNull
  end.

Definition tags (names : list string) : string * json :=
  ("tags", JList (List.map JStr names)).

(** One operation carrying two tags. *)
Definition two_tags : json :=
  document [("/status", JDict [("get", JDict [tags ["health"; "ops"]])])].

Definition two_tags_collection : json := Eval vm_compute in compiled two_tags.

(** Tags interleaved over three paths, with a path-level [parameters] key. *)
Definition interleaved : json :=
  document
    [("/metrics", JDict [("parameters", JList []);
                         ("get", JDict [tags ["metrics"]]);
                         ("POST", JDict [tags ["admin"; "metrics"]])]);
     ("/logs", JDict [("get", JDict [])]);
     ("/metrics/{name}", JDict [("delete", JDict [tags ["admin"]])])].

Definition interleaved_collection : json := Eval vm_compute in compiled interleaved.

(** The path-parameter scenario: one operation on [/users/{id}]. *)
Definition users_operation : json :=
  JDict [tags ["Users"];
         ("parameters",
          JList [JDict [("name", JStr "id"); ("in", JStr "path");
                        ("required", JBool true)]])].

Definition users_item : json :=
  Eval vm_compute in built "/users/{id}" "get" users_operation.

(** A path parameter that does not fill its whole segment. *)
Definition export_item : json :=
  Eval vm_compute in built "/users/{id}.json" "get" (JDict []).

(** An operation secured by a bearer token. *)
Definition bearer_operation : json :=
  JDict [("security", JList [JDict [("BearerAuth", JList [])]])].

Definition bearer_item : json :=
  Eval vm_compute in built "/me" "get" bearer_operation.

Definition json_body (media : list (string * json)) : string * json :=
  ("requestBody", JDict [("content", JDict [("application/json", JDict media)])]).

(** A request body whose schema points at a schema that is not declared. *)
Definition dangling_reference : list (string * json) :=
  [("$ref", JStr "#/components/schemas/Missing")].

Definition dangling_operation : json :=
  JDict [json_body [("schema", JDict dangling_reference)]].

Definition dangling_item : json :=
  Eval vm_compute in built "/kpis" "post" dangling_operation.

Definition declaring_components : json :=
  JDict [("schemas", JDict [("Missing", JDict [("type", JStr "object")])])].

(** A JSON request body with no schema. *)
Definition schemaless_operation : json :=
  JDict [json_body [("example", JDict [])]].

Definition schemaless_item : json :=
  Eval vm_compute in built "/kpis" "post" schemaless_operation.

(** Parameter entries without a [name]. *)
Definition nameless_header_parameter : list (string * json) :=
  [("in", JStr "header")].

Definition nameless_query_parameter : list (string * json) :=
  [("in", JStr "query"); ("required", JBool true)].

Definition limit_parameter : json :=
  JDict [("name", JStr "limit"); ("in", JStr "query")].

Definition nameless_header_operation : list (string * json) :=
  [("parameters", JList [limit_parameter; JDict nameless_header_parameter])].

Definition nameless_query_operation : list (string * json) :=
  [("parameters", JList [limit_parameter; JDict nameless_query_parameter])].

Definition nameless_query_document : json :=
  document [("/kpis", JDict [("get", JDict nameless_query_operation)])].

(** Documents lacking a top-level key. *)
Definition without_paths : list (string * json) := [info].

Definition without_info : list (string * json) :=
  [("paths", JDict [("/status", JDict [("get", JDict [])])])].

End Samples.

(** * Properties *)

(** ** The result monad and loops *)

Lemma bind_ok {A B : Type} (r : result A) (k : A -> result B) (b : B) :
  bind r k = Ok b -> exists a, r = Ok a /\ k a = Ok b.
Proof.
  destruct r as [a | e]; simpl; intros H; [eauto | discriminate].
Qed.

Lemma bind_raise {A B : Type} (r : result A) (k : A -> result B) (e : exn) :
  r = Raise e -> bind r k = Raise e.
Proof. intros ->. reflexivity. Qed.

Ltac inv_bind H :=
  let a := fresh "a" in
  let Ha := fresh "Ha" in
  apply bind_ok in H; destruct H as (a & Ha & H).

Lemma for_each_app {A S : Type} (body : S -> A -> result S) (l1 l2 : list A) (s : S) :
  for_each body (l1 ++ l2) s = (s' <- for_each body l1 s ;; for_each body l2 s').
Proof.
  revert s. induction l1 as [| a l1 IH]; intros s; simpl; [reflexivity |].
  destruct (body s a) as [s' | e]; simpl; [apply IH | reflexivity].
Qed.

Lemma collect_length {A B : Type} (f : A -> result B) (l : list A) (bs : list B) :
  collect f l = Ok bs -> List.length bs = List.length l.
Proof.
  revert bs. induction l as [| a l IH]; intros bs H; simpl in H.
  - inversion H. reflexivity.
  - inv_bind H. inv_bind H. inversion H; subst. simpl. f_equal. now apply IH.
Qed.

Lemma collect_Forall2 {A B : Type} (f : A -> result B) (l : list A) (bs : list B) :
  collect f l = Ok bs -> Forall2 (fun a b => f a = Ok b) l bs.
Proof.
  revert bs. induction l as [| a l IH]; intros bs H; simpl in H.
  - inversion H. constructor.
  - inv_bind H. inv_bind H. inversion H; subst. constructor; auto.
Qed.

(** ** Strings *)

Lemma prefix_app (t post : string) : String.prefix t (t ++ post) = true.
Proof.
  induction t as [| c t IH]; simpl.
  - now destruct post.
  - destruct (ascii_dec c c) as [_ | n]; [exact IH | now elim n].
Qed.

Lemma contains_unfold (needle hay : string) :
  Str.contains needle hay =
  String.prefix needle hay ||
  match hay with
  | EmptyString => false
  | String _ hay' => Str.contains needle hay'
  end.
Proof. destruct hay; reflexivity. Qed.

Lemma contains_app (t pre post : string) :
  Str.contains t (pre ++ t ++ post) = true.
Proof.
  induction pre as [| c pre IH].
  - change ("" ++ t ++ post) with (t ++ post).
    rewrite contains_unfold, prefix_app. reflexivity.
  - change (String c pre ++ t ++ post) with (String c (pre ++ t ++ post)).
    rewrite contains_unfold, IH. apply orb_true_r.
Qed.

Lemma append_assoc (a b c : string) : (a ++ b) ++ c = a ++ b ++ c.
Proof. induction a as [| x a IH]; simpl; [reflexivity | now rewrite IH]. Qed.

Lemma append_nil_r (a : string) : a ++ "" = a.
Proof. induction a as [| x a IH]; simpl; [reflexivity | now rewrite IH]. Qed.

Lemma join_In (sep x : string) (parts : list string) :
  In x parts -> exists pre post, Str.join sep parts = pre ++ x ++ post.
Proof.
  unfold Str.join. induction parts as [| y parts IH]; intros Hin; [contradiction |].
  destruct Hin as [-> | Hin].
  - destruct parts as [| z parts]; simpl.
    + exists "", "". simpl. now rewrite append_nil_r.
    + exists "", (sep ++ String.concat sep (z :: parts)). reflexivity.
  - destruct (IH Hin) as (pre & post & E).
    destruct parts as [| z parts]; [contradiction |].
    exists (y ++ sep ++ pre), post.
    change (String.concat sep (y :: z :: parts))
      with (y ++ sep ++ String.concat sep (z :: parts)).
    rewrite E, !append_assoc. reflexivity.
Qed.

Lemma endswith_snoc (c : ascii) (s : string) :
  Str.endswith c (s ++ String c "") = true.
Proof.
  induction s as [| x s IH]; simpl.
  - apply Ascii.eqb_refl.
  - destruct (s ++ String c "") eqn:E; [now destruct s | exact IH].
Qed.

Lemma drop_last_snoc (c : ascii) (s : string) :
  Str.drop_last (s ++ String c "") = s.
Proof.
  induction s as [| x s IH]; simpl; [reflexivity |].
  destruct (s ++ String c "") eqn:E; [now destruct s | now rewrite IH].
Qed.

Lemma url_part_placeholder (p : string) :
  url_part ("{" ++ p ++ "}") = "{{" ++ p ++ "}}".
Proof.
  unfold url_part.
  change ("{" ++ p ++ "}") with (String "{"%char (p ++ "}")).
  assert (E : Str.endswith "}"%char (String "{"%char (p ++ "}")) = true).
  { change (String "{"%char (p ++ "}")) with (("{" ++ p) ++ "}").
    exact (endswith_snoc "}"%char ("{" ++ p)). }
  rewrite E. simpl. now rewrite drop_last_snoc.
Qed.

Lemma raw_url_placeholder (path p : string) :
  In ("{" ++ p ++ "}") (Str.split "/"%char path) ->
  Str.contains ("{{" ++ p ++ "}}") (raw_url path) = true.
Proof.
  intros Hin.
  assert (Hpart : In ("{{" ++ p ++ "}}") (url_parts path)).
  { rewrite <- url_part_placeholder. now apply in_map. }
  destruct (join_In "/" _ _ Hpart) as (pre & post & E).
  unfold raw_url. rewrite E, <- (append_assoc base_url pre). apply contains_app.
Qed.

(** ** The request builder *)

Lemma create_postman_request_ok path method operation components base_url_vars item :
  create_postman_request path method operation components base_url_vars = Ok item ->
  exists query_params headers body name,
    build_query_params operation = Ok query_params /\
    build_headers operation = Ok headers /\
    build_body operation = Ok body /\
    Py.get "summary" (JStr (Str.upper method ++ " " ++ path)) operation = Ok name /\
    item = JDict [("name", name);
                  ("request",
                   JDict (request_fields path method headers query_params ++
                          (if Py.truthy body then [("body", body)] else []))%list);
                  ("response", JList [])].
Proof.
  unfold create_postman_request. intros H.
  apply bind_ok in H; destruct H as (qs & Hq & H).
  apply bind_ok in H; destruct H as (hs & Hh & H).
  apply bind_ok in H; destruct H as (body & Hb & H).
  apply bind_ok in H; destruct H as (name & Hn & H).
  exists qs, hs, body, name. repeat split; auto.
  inversion H; subst. unfold request_fields. now destruct (Py.truthy body).
Qed.

(** The builder never looks at [components] or [base_url_vars]. *)
Lemma create_postman_request_components path method operation c1 b1 c2 b2 :
  create_postman_request path method operation c1 b1 =
  create_postman_request path method operation c2 b2.
Proof. reflexivity. Qed.

Lemma built_request_method path method operation components base_url_vars item :
  create_postman_request path method operation components base_url_vars = Ok item ->
  request_method item = Some (JStr (Str.upper method)).
Proof.
  intros H. apply create_postman_request_ok in H.
  destruct H as (qs & hs & body & name & _ & _ & _ & _ & ->). reflexivity.
Qed.

Lemma built_request_raw_url path method operation components base_url_vars item :
  create_postman_request path method operation components base_url_vars = Ok item ->
  request_raw_url item = Some (JStr (raw_url path)).
Proof.
  intros H. apply create_postman_request_ok in H.
  destruct H as (qs & hs & body & name & _ & _ & _ & _ & ->). reflexivity.
Qed.

Lemma built_request_headers path method operation components base_url_vars item :
  create_postman_request path method operation components base_url_vars = Ok item ->
  build_headers operation = Ok (request_headers item).
Proof.
  intros H. apply create_postman_request_ok in H.
  destruct H as (qs & hs & body & name & _ & Hh & _ & _ & ->). exact Hh.
Qed.

Lemma built_request_query path method operation components base_url_vars item :
  create_postman_request path method operation components base_url_vars = Ok item ->
  build_query_params operation = Ok (request_query item).
Proof.
  intros H. apply create_postman_request_ok in H.
  destruct H as (qs & hs & body & name & Hq & _ & _ & _ & ->). exact Hq.
Qed.

Lemma built_request_body path method operation components base_url_vars item :
  create_postman_request path method operation components base_url_vars = Ok item ->
  exists body,
    build_body operation = Ok body /\
    request_body item = if Py.truthy body then Some body else None.
Proof.
  intros H. apply create_postman_request_ok in H.
  destruct H as (qs & hs & body & name & _ & _ & Hb & _ & ->).
  exists body. split; [exact Hb |]. now destruct (Py.truthy body).
Qed.

Lemma build_body_ok operation body :
  build_body operation = Ok body -> body = expected_body operation.
Proof.
  unfold build_body, expected_body, declared_json_schema. intros H.
  apply bind_ok in H; destruct H as (has_body & Hc & H).
  destruct operation as [| | | s | l | d]; simpl in Hc; try discriminate;
    inversion Hc; subst; clear Hc; simpl.
  - destruct (Str.contains "requestBody" s); [discriminate | congruence].
  - destruct (existsb (Py.is_str "requestBody") l); [discriminate | congruence].
  - destruct (Py.assoc "requestBody" d) as [rb |] eqn:Erb; simpl in H;
      [| congruence].
    rewrite Erb in H. simpl in H.
    apply bind_ok in H; destruct H as (content & Hct & H).
    destruct rb as [| | | | | rbd]; simpl in Hct; try discriminate. simpl.
    apply bind_ok in H; destruct H as (has_json & Hj & H).
    destruct (Py.assoc "content" rbd) as [ct |] eqn:Ect; inversion Hct; subst; clear Hct.
    + destruct content as [| | | cs | cl | cd]; simpl in Hj; try discriminate;
        inversion Hj; subst; clear Hj; simpl.
      * destruct (Str.contains "application/json" cs); [discriminate | congruence].
      * destruct (existsb (Py.is_str "application/json") cl); [discriminate | congruence].
      * destruct (Py.assoc "application/json" cd) as [media |] eqn:Em; simpl in H;
          [| congruence].
        rewrite Em in H. simpl in H.
        apply bind_ok in H; destruct H as (schema & Hs & H).
        destruct media as [| | | | | md]; simpl in Hs; try discriminate. simpl.
        destruct (Py.assoc "schema" md) as [sc |] eqn:Es; inversion Hs; subst; clear Hs.
        -- destruct (Py.truthy schema); congruence.
        -- simpl in H. congruence.
    + simpl in Hj. inversion Hj; subst. congruence.
Qed.

Lemma truthy_not_null (v : json) : Py.truthy v = true -> v <> JNull.
Proof. intros H ->. discriminate. Qed.

Lemma for_each_auth_headers reqs headers headers' :
  for_each add_auth_headers reqs headers = Ok headers' ->
  headers' = (headers ++ flat_map requirement_headers reqs)%list.
Proof.
  revert headers. induction reqs as [| req reqs IH]; intros headers H; simpl in H.
  - inversion H. now rewrite app_nil_r.
  - apply bind_ok in H; destruct H as (hs1 & Hstep & H).
    apply IH in H. subst headers'. simpl. rewrite app_assoc. f_equal.
    unfold add_auth_headers in Hstep.
    apply bind_ok in Hstep; destruct Hstep as (api & Ha & Hstep).
    apply bind_ok in Hstep; destruct Hstep as (bearer & Hb & Hstep).
    inversion Hstep; subst. unfold requirement_headers, has_key.
    rewrite Ha, Hb. destruct api, bearer; simpl;
      rewrite <- ?app_assoc, ?app_nil_r; reflexivity.
Qed.

Lemma build_headers_ok operation security reqs headers :
  field "security" operation = Some security ->
  Py.iter security = Ok reqs ->
  build_headers operation = Ok headers ->
  headers = flat_map requirement_headers reqs.
Proof.
  intros Hf Hi H. destruct operation as [| | | | | d]; try discriminate.
  simpl in Hf. unfold build_headers in H. simpl in H. rewrite Hf in H. simpl in H.
  rewrite Hi in H. simpl in H. now apply for_each_auth_headers in H.
Qed.

Lemma count_authorization_headers reqs :
  List.length (filter is_authorization_header (flat_map requirement_headers reqs)) =
  List.length (filter (has_key "BearerAuth") reqs).
Proof.
  induction reqs as [| req reqs IH]; simpl; [reflexivity |].
  rewrite filter_app, length_app, IH. unfold requirement_headers.
  destruct (has_key "ApiKeyAuth" req), (has_key "BearerAuth" req); reflexivity.
Qed.

(** ** Dictionary keys *)

Lemma key_eqb_norm a b :
  Py.key_eqb a b = true <->
  Py.hashable a = true /\ Py.hashable b = true /\ key_norm a = key_norm b.
Proof.
  split.
  - destruct a as [| x | x | x | x | x], b as [| y | y | y | y | y]; simpl;
      intros H; try discriminate; repeat split;
      try (apply Bool.eqb_prop in H); try (apply Z.eqb_eq in H);
      try (apply String.eqb_eq in H); subst; reflexivity.
  - intros (Ha & Hb & E).
    destruct a as [| x | x | x | x | x], b as [| y | y | y | y | y];
      simpl in *; try discriminate; try reflexivity; inversion E as [E'];
      subst; try apply Z.eqb_refl; try apply String.eqb_refl.
    destruct x, y; simpl in *; try reflexivity; discriminate.
Qed.

Lemma key_eqb_refl a : Py.hashable a = true -> Py.key_eqb a a = true.
Proof. intros H. apply key_eqb_norm. auto. Qed.

Lemma key_eqb_sym a b : Py.key_eqb a b = Py.key_eqb b a.
Proof.
  destruct (Py.key_eqb a b) eqn:E1, (Py.key_eqb b a) eqn:E2; try reflexivity.
  - apply key_eqb_norm in E1. destruct E1 as (? & ? & ?).
    rewrite <- E2. symmetry. apply key_eqb_norm. auto.
  - apply key_eqb_norm in E2. destruct E2 as (? & ? & ?).
    rewrite <- E1. apply key_eqb_norm. auto.
Qed.

Lemma key_eqb_trans a b c :
  Py.key_eqb a b = true -> Py.key_eqb b c = true -> Py.key_eqb a c = true.
Proof.
  rewrite !key_eqb_norm. intros (? & ? & E1) (? & ? & E2).
  repeat split; auto. congruence.
Qed.

Lemma key_eqb_str s t : Py.key_eqb (JStr s) (JStr t) = String.eqb s t.
Proof. reflexivity. Qed.

(** ** Grouping by tag *)

Lemma add_stream_app g s1 s2 :
  add_stream g (s1 ++ s2) = add_stream (add_stream g s1) s2.
Proof. apply fold_left_app. Qed.

Lemma for_each_add_tag op tags g g' :
  for_each (add_tag op) tags g = Ok g' ->
  g' = add_stream g (List.map (fun tag => (tag, op)) tags) /\
  all_hashable (List.map (fun tag => (tag, op)) tags) = true.
Proof.
  revert g. induction tags as [| tag tags IH]; intros g H; simpl in H.
  - inversion H. split; reflexivity.
  - unfold add_tag at 1 in H. destruct (Py.hashable tag) eqn:E; [| discriminate].
    simpl in H. apply IH in H. destruct H as (-> & Hh).
    split; [reflexivity |]. simpl. now rewrite E.
Qed.

Lemma add_operation_ok path g entry g' :
  add_operation path g entry = Ok g' ->
  g' = add_stream g (operation_stream path entry) /\
  all_hashable (operation_stream path entry) = true.
Proof.
  destruct entry as (method, operation).
  unfold add_operation, operation_stream. simpl.
  destruct (recognized method); simpl; intros H.
  - apply bind_ok in H; destruct H as (tags & Ht & H).
    apply bind_ok in H; destruct H as (tag_list & Hi & H).
    apply for_each_add_tag in H.
    replace (operation_tags operation) with tag_list; [exact H |].
    destruct operation as [| | | | | d]; try discriminate.
    unfold operation_tags. simpl in *.
    destruct (Py.assoc "tags" d); inversion Ht; subst.
    + now rewrite Hi.
    + simpl in Hi. now inversion Hi.
  - inversion H. split; reflexivity.
Qed.

Lemma for_each_stream {A : Type} (body : groups -> A -> result groups)
  (f : A -> list (json * triple)) :
  (forall g a g', body g a = Ok g' ->
                  g' = add_stream g (f a) /\ all_hashable (f a) = true) ->
  forall l g g', for_each body l g = Ok g' ->
                 g' = add_stream g (flat_map f l) /\ all_hashable (flat_map f l) = true.
Proof.
  intros Hbody. induction l as [| a l IH]; intros g g' H; simpl in H.
  - inversion H. split; reflexivity.
  - apply bind_ok in H; destruct H as (g1 & H1 & H).
    apply Hbody in H1. destruct H1 as (-> & Hh1).
    apply IH in H. destruct H as (-> & Hh).
    simpl. split.
    + now rewrite add_stream_app.
    + unfold all_hashable in *. rewrite forallb_app, Hh1, Hh. reflexivity.
Qed.

Lemma add_path_ok g entry g' :
  add_path g entry = Ok g' ->
  g' = add_stream g (flat_map (operation_stream (fst entry)) (dict_items (snd entry))) /\
  all_hashable (flat_map (operation_stream (fst entry)) (dict_items (snd entry))) = true.
Proof.
  destruct entry as (path, methods). unfold add_path. simpl. intros H.
  apply bind_ok in H; destruct H as (operations & Hi & H).
  destruct methods as [| | | | | d]; try discriminate. inversion Hi; subst. simpl.
  revert H. apply for_each_stream. intros; now apply add_operation_ok.
Qed.

Lemma flat_map_flat_map {A B C : Type} (f : B -> list C) (g : A -> list B) (l : list A) :
  flat_map f (flat_map g l) = flat_map (fun a => flat_map f (g a)) l.
Proof.
  induction l as [| a l IH]; simpl; [reflexivity |].
  now rewrite flat_map_app, IH.
Qed.

Lemma tag_stream_paths openapi_spec :
  tag_stream openapi_spec =
  flat_map (fun pe : string * json =>
              flat_map (operation_stream (fst pe)) (dict_items (snd pe)))
           (dict_items (document_paths openapi_spec)).
Proof.
  unfold tag_stream, extract_operations. rewrite flat_map_flat_map.
  apply flat_map_ext. intros pe. rewrite flat_map_flat_map.
  apply flat_map_ext. intros me. unfold operation_stream.
  destruct (recognized (fst me)); simpl; [apply app_nil_r | reflexivity].
Qed.

Lemma group_operations_stream openapi_spec g :
  group_operations openapi_spec = Ok g ->
  g = add_stream [] (tag_stream openapi_spec) /\
  all_hashable (tag_stream openapi_spec) = true.
Proof.
  unfold group_operations. intros H.
  apply bind_ok in H; destruct H as (paths & Hp & H).
  apply bind_ok in H; destruct H as (entries & Hi & H).
  rewrite tag_stream_paths.
  replace (dict_items (document_paths openapi_spec)) with entries.
  - revert H. apply for_each_stream. intros; now apply add_path_ok.
  - destruct paths as [| | | | | pd]; try discriminate.
    inversion Hi; subst entries.
    destruct openapi_spec as [| | | | | d]; try discriminate.
    unfold document_paths. simpl in *.
    destruct (Py.assoc "paths" d); inversion Hp; reflexivity.
Qed.

Lemma group_keys_add tag op g :
  group_keys (add_to_group tag op g) =
  if existsb (fun k => Py.key_eqb k tag) (group_keys g)
  then group_keys g else (group_keys g ++ [tag])%list.
Proof.
  induction g as [| (k, ops) g IH]; simpl; [reflexivity |].
  destruct (Py.key_eqb k tag); simpl; [reflexivity |].
  rewrite IH. now destruct (existsb _ (group_keys g)).
Qed.

Lemma group_keys_add_stream s g :
  group_keys (add_stream g s) =
  (group_keys g ++ first_occurrences_from (group_keys g) (List.map fst s))%list.
Proof.
  revert g. induction s as [| e s IH]; intros g; simpl.
  - now rewrite app_nil_r.
  - unfold add_stream in *. simpl. rewrite IH, group_keys_add.
    destruct (existsb _ (group_keys g)); [reflexivity |].
    now rewrite <- app_assoc.
Qed.

Lemma group_size_add tag op g :
  group_size (add_to_group tag op g) = S (group_size g).
Proof.
  unfold group_size. induction g as [| (k, ops) g IH]; simpl; [reflexivity |].
  destruct (Py.key_eqb k tag); simpl.
  - rewrite length_app. simpl. lia.
  - rewrite IH. lia.
Qed.

Lemma group_size_add_stream s g :
  group_size (add_stream g s) = group_size g + List.length s.
Proof.
  revert g. induction s as [| e s IH]; intros g; simpl; [lia |].
  unfold add_stream in *. simpl. rewrite IH, group_size_add. lia.
Qed.

Lemma tagged_snoc k s tag op :
  tagged k (s ++ [(tag, op)]) =
  (tagged k s ++ (if Py.key_eqb k tag then [op] else []))%list.
Proof.
  unfold tagged. rewrite filter_app, map_app. simpl.
  now destruct (Py.key_eqb k tag).
Qed.

Lemma existsb_false_In {A : Type} (f : A -> bool) (l : list A) (a : A) :
  existsb f l = false -> In a l -> f a = false.
Proof.
  intros He Hin. destruct (f a) eqn:E; [| reflexivity].
  rewrite <- He. symmetry. apply existsb_exists. eauto.
Qed.

Lemma tagged_absent keys s tag :
  Forall (fun e => existsb (fun k => Py.key_eqb k (fst e)) keys = true) s ->
  existsb (fun k => Py.key_eqb k tag) keys = false ->
  tagged tag s = [].
Proof.
  intros Hs Habs. unfold tagged.
  induction Hs as [| e s He _ IH]; simpl; [reflexivity |].
  destruct (Py.key_eqb tag (fst e)) eqn:E; [| exact IH].
  apply existsb_exists in He. destruct He as (k & Hin & Hk).
  rewrite key_eqb_sym in E.
  pose proof (key_eqb_trans _ _ _ Hk E) as Hkt.
  now rewrite (existsb_false_In _ _ _ Habs Hin) in Hkt.
Qed.

Lemma add_to_group_tagged s tag op g :
  Py.hashable tag = true ->
  distinct_keys (group_keys g) = true ->
  (existsb (fun k => Py.key_eqb k tag) (group_keys g) = false -> tagged tag s = []) ->
  Forall (fun e => snd e = tagged (fst e) s) g ->
  Forall (fun e => snd e = tagged (fst e) (s ++ [(tag, op)])) (add_to_group tag op g).
Proof.
  intros Hh. induction g as [| (k, ops) g IH]; intros Hd Habs Hg; simpl.
  - constructor; [| constructor]. simpl.
    rewrite tagged_snoc, key_eqb_refl, Habs by auto. reflexivity.
  - simpl in Hd. apply andb_true_iff in Hd. destruct Hd as (Hk & Hd).
    apply negb_true_iff in Hk.
    inversion Hg as [| ? ? Hops Hg']; subst. simpl in Hops.
    destruct (Py.key_eqb k tag) eqn:E.
    + constructor.
      * simpl. now rewrite tagged_snoc, E, Hops.
      * apply Forall_forall. intros (k', ops') Hin. simpl.
        rewrite Forall_forall in Hg'. pose proof (Hg' _ Hin) as Ho.
        simpl in Ho. rewrite tagged_snoc, <- Ho.
        assert (Hkk' : Py.key_eqb k k' = false).
        { apply (existsb_false_In _ _ _ Hk). apply (in_map fst _ _ Hin). }
        destruct (Py.key_eqb k' tag) eqn:E'; [| now rewrite app_nil_r].
        rewrite key_eqb_sym in E'.
        now rewrite (key_eqb_trans _ _ _ E E') in Hkk'.
    + constructor.
      * simpl. now rewrite tagged_snoc, E, app_nil_r.
      * apply IH; auto. intros Ha. apply Habs. simpl. now rewrite E.
Qed.

Lemma distinct_keys_snoc keys tag :
  distinct_keys keys = true ->
  existsb (fun k => Py.key_eqb k tag) keys = false ->
  distinct_keys (keys ++ [tag]) = true.
Proof.
  induction keys as [| k keys IH]; simpl; intros Hd Ha; [reflexivity |].
  apply andb_true_iff in Hd. destruct Hd as (Hk & Hd).
  apply orb_false_iff in Ha. destruct Ha as (Hkt & Ha).
  rewrite existsb_app. simpl. apply negb_true_iff in Hk.
  rewrite Hk, Hkt, IH by auto. reflexivity.
Qed.

Lemma grouped_add s g tag op :
  Py.hashable tag = true ->
  grouped s g -> grouped (s ++ [(tag, op)]) (add_to_group tag op g).
Proof.
  intros Hh (Hg & Hd & Hs). repeat split.
  - apply add_to_group_tagged; auto. intros Ha. eapply tagged_absent; eauto.
  - rewrite group_keys_add.
    destruct (existsb _ (group_keys g)) eqn:E; [exact Hd |].
    now apply distinct_keys_snoc.
  - rewrite group_keys_add. apply Forall_app. split.
    + eapply Forall_impl; [| exact Hs]. intros e He. simpl in He.
      destruct (existsb (fun k => Py.key_eqb k tag) (group_keys g)); [exact He |].
      rewrite existsb_app, He. reflexivity.
    + constructor; [| constructor]. simpl.
      destruct (existsb (fun k => Py.key_eqb k tag) (group_keys g)) eqn:E;
        [exact E |].
      rewrite existsb_app. simpl. rewrite key_eqb_refl by auto.
      now rewrite orb_true_r.
Qed.

Lemma grouped_add_stream s2 s1 g :
  all_hashable s2 = true ->
  grouped s1 g -> grouped (s1 ++ s2) (add_stream g s2).
Proof.
  revert s1 g. induction s2 as [| (tag, op) s2 IH]; intros s1 g Hh Hg.
  - now rewrite app_nil_r.
  - simpl in Hh. apply andb_true_iff in Hh. destruct Hh as (Ht & Hh).
    change (s1 ++ (tag, op) :: s2)%list with (s1 ++ [(tag, op)] ++ s2)%list.
    rewrite app_assoc. unfold add_stream. simpl.
    apply (IH (s1 ++ [(tag, op)])%list); auto. now apply grouped_add.
Qed.

(** What the first loop of [create_postman_collection] computes. *)
Lemma group_operations_grouped openapi_spec g :
  group_operations openapi_spec = Ok g ->
  grouped (tag_stream openapi_spec) g /\
  group_keys g = first_occurrences (List.map fst (tag_stream openapi_spec)) /\
  group_size g = List.length (tag_stream openapi_spec).
Proof.
  intros H. apply group_operations_stream in H. destruct H as (-> & Hh).
  split; [| split].
  - change (tag_stream openapi_spec) with ([] ++ tag_stream openapi_spec)%list at 1.
    apply grouped_add_stream; auto. repeat split; constructor.
  - rewrite group_keys_add_stream. reflexivity.
  - rewrite group_size_add_stream. reflexivity.
Qed.

(** ** Folders *)

Lemma build_folder_ok openapi_spec k ops folder :
  build_folder openapi_spec (k, ops) = Ok folder ->
  exists tag items,
    k = JStr tag /\
    collect (build_request openapi_spec) ops = Ok items /\
    folder = JDict [("name", JStr (folder_name tag)); ("item", JList items)].
Proof.
  unfold build_folder. intros H.
  apply bind_ok in H; destruct H as (items & Hi & H).
  apply bind_ok in H; destruct H as (titled & Ht & H).
  destruct k as [| | | tag | |]; try discriminate.
  inversion Ht; subst. inversion H; subst. now exists tag, items.
Qed.

Lemma create_postman_collection_ok openapi_spec collection :
  create_postman_collection openapi_spec = Ok collection ->
  exists g,
    group_operations openapi_spec = Ok g /\
    collect (build_folder openapi_spec) g = Ok (collection_folders collection).
Proof.
  unfold create_postman_collection. intros H.
  apply bind_ok in H; destruct H as (g & Hg & H).
  apply bind_ok in H; destruct H as (items & Hi & H).
  apply bind_ok in H; destruct H as (info & _ & H).
  apply bind_ok in H; destruct H as (title & _ & H).
  apply bind_ok in H; destruct H as (info' & _ & H).
  apply bind_ok in H; destruct H as (description & _ & H).
  inversion H; subst. exists g. split; [exact Hg | exact Hi].
Qed.

Lemma folders_size openapi_spec g folders :
  Forall2 (fun group folder => build_folder openapi_spec group = Ok folder) g folders ->
  list_sum (List.map (fun folder => List.length (folder_items folder)) folders) =
  group_size g.
Proof.
  unfold group_size. induction 1 as [| (k, ops) folder g folders Hb _ IH]; simpl;
    [reflexivity |].
  apply build_folder_ok in Hb. destruct Hb as (tag & items & _ & Hc & ->).
  apply collect_length in Hc. simpl. rewrite IH. unfold folder_items. simpl. lia.
Qed.

Lemma folders_of_groups openapi_spec stream g folders :
  Forall (fun group => snd group = tagged (fst group) stream) g ->
  Forall2 (fun group folder => build_folder openapi_spec group = Ok folder) g folders ->
  exists tags : list string,
    group_keys g = List.map JStr tags /\
    Forall2 (fun folder tag =>
               field "name" folder = Some (JStr (folder_name tag)) /\
               Forall2 (fun op item => build_request openapi_spec op = Ok item)
                       (tagged (JStr tag) stream) (folder_items folder))
            folders tags.
Proof.
  intros Hg Hf. induction Hf as [| (k, ops) folder g folders Hb _ IH].
  - exists []. split; constructor.
  - inversion Hg as [| ? ? Hops Hg']; subst. simpl in Hops.
    destruct (IH Hg') as (tags & Hk & Hfs).
    apply build_folder_ok in Hb. destruct Hb as (tag & items & -> & Hc & ->).
    exists (tag :: tags). split.
    + simpl. now rewrite Hk.
    + constructor; [| exact Hfs]. split; [reflexivity |].
      unfold folder_items. simpl. simpl in Hops. rewrite <- Hops.
      now apply collect_Forall2.
Qed.

Lemma distinct_strings tags :
  distinct_keys (List.map JStr tags) = true -> NoDup tags.
Proof.
  induction tags as [| tag tags IH]; simpl; intros H; constructor.
  - apply andb_true_iff in H. destruct H as (H & _). apply negb_true_iff in H.
    intros Hin. apply (in_map JStr) in Hin.
    apply (existsb_false_In _ _ _ H) in Hin. simpl in Hin.
    now rewrite String.eqb_refl in Hin.
  - apply IH. apply andb_true_iff in H. tauto.
Qed.

Lemma length_flat_map {A B : Type} (f : A -> list B) (l : list A) :
  List.length (flat_map f l) = list_sum (List.map (fun a => List.length (f a)) l).
Proof.
  induction l as [| a l IH]; simpl; [reflexivity |].
  now rewrite length_app, IH.
Qed.

(** ** Parameters, bodies and aborted runs *)

Lemma assoc_setitem_same key v d : Py.assoc key (Py.setitem key v d) = Some v.
Proof.
  induction d as [| (k, x) d IH]; simpl.
  - now rewrite String.eqb_refl.
  - destruct (String.eqb k key) eqn:E; simpl; now rewrite E.
Qed.

Lemma assoc_setitem_other key key' v d :
  String.eqb key key' = false ->
  Py.assoc key' (Py.setitem key v d) = Py.assoc key' d.
Proof.
  intros Hk. induction d as [| (k, x) d IH]; simpl.
  - now rewrite Hk.
  - destruct (String.eqb k key) eqn:E; simpl.
    + apply String.eqb_eq in E. subst k. now rewrite Hk.
    + now rewrite IH.
Qed.

Lemma build_query_params_list d params :
  Py.assoc "parameters" d = Some (JList params) ->
  build_query_params (JDict d) = for_each add_query_param params [].
Proof. intros H. unfold build_query_params. simpl. now rewrite H. Qed.

Lemma add_query_param_not_query query_params param :
  Py.assoc "in" param <> Some (JStr "query") ->
  add_query_param query_params (JDict param) = Ok query_params.
Proof.
  intros H. unfold add_query_param. simpl.
  destruct (Py.assoc "in" param) as [[| | | loc | |] |]; simpl; try reflexivity.
  destruct (String.eqb loc "query") eqn:E; [| reflexivity].
  apply String.eqb_eq in E. now subst loc.
Qed.

Lemma add_query_param_nameless query_params param :
  Py.assoc "in" param = Some (JStr "query") ->
  Py.assoc "name" param = None ->
  add_query_param query_params (JDict param) = Raise KeyError.
Proof. intros Hi Hn. unfold add_query_param. simpl. now rewrite Hi, Hn. Qed.

Lemma build_body_declared operation schema :
  declared_json_schema operation = Some schema ->
  build_body operation = Ok (if Py.truthy schema then generic_body else JNull).
Proof.
  unfold declared_json_schema, build_body. intros H.
  destruct operation as [| | | | | d]; try discriminate. simpl in *.
  destruct (Py.assoc "requestBody" d) as [[| | | | | rb] |]; try discriminate.
  simpl in *.
  destruct (Py.assoc "content" rb) as [[| | | | | ct] |]; try discriminate.
  simpl in *.
  destruct (Py.assoc "application/json" ct) as [[| | | | | media] |];
    try discriminate.
  simpl in *. rewrite H. simpl. now destruct (Py.truthy schema).
Qed.

Lemma collect_raise {A B : Type} (f : A -> result B) (l : list A) (a : A) :
  In a l -> (exists e, f a = Raise e) -> exists e, collect f l = Raise e.
Proof.
  intros Hin (e & He). induction l as [| x l IH]; [contradiction |].
  simpl. destruct (f x) as [b | e'] eqn:E; simpl; [| eauto].
  destruct Hin as [-> | Hin]; [congruence |].
  destruct (IH Hin) as (e'' & ->). simpl. eauto.
Qed.

(** An operation that cannot be built aborts the whole compilation as soon
    as it is reachable: recognized method and at least one tag. *)
Lemma failing_operation_aborts openapi_spec path methods method operation :
  In (path, methods) (dict_items (document_paths openapi_spec)) ->
  In (method, operation) (dict_items methods) ->
  recognized method = true ->
  operation_tags operation <> [] ->
  (exists e, forall components base_url_vars,
      create_postman_request path method operation components base_url_vars = Raise e) ->
  exists e, create_postman_collection openapi_spec = Raise e.
Proof.
  intros Hp Hm Hr Ht (e & He). unfold create_postman_collection.
  destruct (group_operations openapi_spec) as [g | e'] eqn:Eg; simpl; [| eauto].
  apply group_operations_grouped in Eg. destruct Eg as ((Hops & _ & Hs) & _ & _).
  destruct (operation_tags operation) as [| tag tags] eqn:Etags; [congruence |].
  assert (Hin : In (tag, (path, method, operation)) (tag_stream openapi_spec)).
  { rewrite tag_stream_paths. apply in_flat_map. exists (path, methods).
    split; [exact Hp |]. apply in_flat_map. exists (method, operation).
    split; [exact Hm |]. unfold operation_stream. simpl. rewrite Hr, Etags.
    now left. }
  rewrite Forall_forall in Hs. pose proof (Hs _ Hin) as Hk. simpl in Hk.
  apply existsb_exists in Hk. destruct Hk as (k & Hkin & Hk).
  apply in_map_iff in Hkin. destruct Hkin as ((k', ops) & Ek & Hgin).
  simpl in Ek. subst k'.
  rewrite Forall_forall in Hops. pose proof (Hops _ Hgin) as Eops. simpl in Eops.
  assert (Hop : In (path, method, operation) ops).
  { rewrite Eops. unfold tagged.
    apply (in_map snd _ (tag, (path, method, operation))).
    apply filter_In. split; [exact Hin | exact Hk]. }
  assert (Hfolder : exists e0, build_folder openapi_spec (k, ops) = Raise e0).
  { unfold build_folder.
    destruct (collect_raise (build_request openapi_spec) _ _ Hop) as (e0 & ->).
    - unfold build_request.
      destruct (Py.get "components" (JDict []) openapi_spec); simpl; eauto.
    - simpl. eauto. }
  destruct (collect_raise (build_folder openapi_spec) _ _ Hgin Hfolder) as (e0 & ->).
  simpl. eauto.
Qed.

Lemma for_each_tag_names op names g :
  for_each (add_tag op) (List.map JStr names) g =
  Ok (add_stream g (List.map (fun name => (JStr name, op)) names)).
Proof.
  revert g. induction names as [| name names IH]; intros g; simpl; [reflexivity |].
  now rewrite IH.
Qed.

(** ** What the compiler reads *)

Lemma collect_ext {A B : Type} (f g : A -> result B) (l : list A) :
  (forall a, f a = g a) -> collect f l = collect g l.
Proof.
  intros Hfg. induction l as [| a l IH]; simpl; [reflexivity |].
  now rewrite Hfg, IH.
Qed.

Lemma build_request_any_document d1 d2 op :
  build_request (JDict d1) op = build_request (JDict d2) op.
Proof.
  destruct op as ((path, method), operation). unfold build_request. simpl.
  destruct (Py.assoc "components" d1), (Py.assoc "components" d2); reflexivity.
Qed.

(** The collection is a function of the [paths] and [info] entries alone:
    there is no other input, hidden or declared, that a second run could see
    differently. *)
Lemma compilation_reads_paths_and_info d1 d2 :
  Py.assoc "paths" d1 = Py.assoc "paths" d2 ->
  Py.assoc "info" d1 = Py.assoc "info" d2 ->
  create_postman_collection (JDict d1) = create_postman_collection (JDict d2).
Proof.
  intros Hp Hi. unfold create_postman_collection, group_operations. simpl.
  rewrite Hp, Hi.
  destruct (match Py.assoc "paths" d2 with
            | Some x => Ok x
            | None => Ok (JDict [])
            end) as [paths | e]; simpl; [| reflexivity].
  destruct (Py.items paths) as [entries | e]; simpl; [| reflexivity].
  destruct (for_each add_path entries []) as [g | e]; simpl; [| reflexivity].
  rewrite (collect_ext (build_folder (JDict d1)) (build_folder (JDict d2))).
  - reflexivity.
  - intros (tag, ops). unfold build_folder.
    rewrite (collect_ext (build_request (JDict d1)) (build_request (JDict d2)));
      [reflexivity |].
    intros op. apply build_request_any_document.
Qed.

(** ** Letter case *)

Lemma to_upper_to_lower c : Str.to_upper (Str.to_lower c) = Str.to_upper c.
Proof. destruct c as [[] [] [] [] [] [] [] []]; reflexivity. Qed.

Lemma upper_lower s : Str.upper (Str.lower s) = Str.upper s.
Proof.
  unfold Str.upper, Str.lower. induction s as [| c s IH]; simpl; [reflexivity |].
  now rewrite to_upper_to_lower, IH.
Qed.









(** * The claims *)

(** C1 (as amended).  When a document compiles, the number of Collection
    Items over all folders is the number of tag memberships of the operations
    with a recognized method: every such (path, method) pair counts once per
    entry of its [tags] list, and once when it has no [tags] key.  It is the
    number of those pairs when each of them carries exactly one tag. *)
Theorem item_count_counts_tag_memberships openapi_spec collection :
  create_postman_collection openapi_spec = Ok collection ->
  total_items collection =
    list_sum (List.map (fun op : triple => List.length (operation_tags (snd op)))
                       (extract_operations openapi_spec)) /\
  (Forall (fun op : triple => List.length (operation_tags (snd op)) = 1)
          (extract_operations openapi_spec) ->
   total_items collection = List.length (extract_operations openapi_spec)).
Proof.
  intros H. apply create_postman_collection_ok in H. destruct H as (g & Hg & Hc).
  apply group_operations_grouped in Hg. destruct Hg as (_ & _ & Hsize).
  apply collect_Forall2, folders_size in Hc.
  assert (E : total_items collection =
              list_sum (List.map (fun op : triple => List.length (operation_tags (snd op)))
                                 (extract_operations openapi_spec))).
  { unfold total_items. rewrite Hc, Hsize. unfold tag_stream.
    rewrite length_flat_map. f_equal. apply map_ext. intros op.
    apply length_map. }
  split; [exact E |].
  intros Hone. rewrite E. clear E.
  induction Hone as [| op ops H1 _ IH]; simpl; [reflexivity |].
  now rewrite H1, IH.
Qed.

Lemma item_count_counts_tag_memberships_witness :
  create_postman_collection Samples.two_tags = Ok Samples.two_tags_collection /\
  total_items Samples.two_tags_collection = 2.
Proof.
  split; [reflexivity |].
  rewrite (proj1 (@item_count_counts_tag_memberships
                    Samples.two_tags Samples.two_tags_collection eq_refl)).
  reflexivity.
Defined.

(** C1 (as stated) fails: one recognized (path, method) pair whose operation
    carries two tags yields two Collection Items. *)
Lemma item_count_differs_from_operation_count :
  create_postman_collection Samples.two_tags = Ok Samples.two_tags_collection /\
  List.length (extract_operations Samples.two_tags) = 1 /\
  total_items Samples.two_tags_collection = 2.
Proof. repeat split. Qed.

(** C2 (as amended).  A parameter entry without [name] whose location is not
    [query] is left out of the query-parameter list and the operation builds
    exactly as it would without that entry.  A [query] parameter without
    [name] raises [KeyError]: no item is built for the operation, and the
    compilation of every document that reaches it aborts. *)
Theorem nameless_parameter_dropped_unless_query
  path method d before param after components base_url_vars :
  Py.assoc "parameters" d = Some (JList (before ++ JDict param :: after)) ->
  Py.assoc "name" param = None ->
  (Py.assoc "in" param <> Some (JStr "query") ->
   create_postman_request path method (JDict d) components base_url_vars =
   create_postman_request path method
     (JDict (Py.setitem "parameters" (JList (before ++ after)) d))
     components base_url_vars) /\
  (Py.assoc "in" param = Some (JStr "query") ->
   (exists e,
       create_postman_request path method (JDict d) components base_url_vars =
       Raise e) /\
   (forall query_params,
       for_each add_query_param before [] = Ok query_params ->
       create_postman_request path method (JDict d) components base_url_vars =
       Raise KeyError) /\
   (forall openapi_spec methods,
       In (path, methods) (dict_items (document_paths openapi_spec)) ->
       In (method, JDict d) (dict_items methods) ->
       recognized method = true ->
       operation_tags (JDict d) <> [] ->
       exists e, create_postman_collection openapi_spec = Raise e)).
Proof.
  intros Hp Hn. split.
  - intros Hq. unfold create_postman_request.
    assert (Eq : build_query_params (JDict d) =
                 build_query_params
                   (JDict (Py.setitem "parameters" (JList (before ++ after)) d))).
    { rewrite (build_query_params_list _ Hp).
      rewrite (build_query_params_list _ (assoc_setitem_same _ _ _)).
      rewrite !for_each_app.
      destruct (for_each add_query_param before []) as [qs | e]; [| reflexivity].
      simpl. now rewrite add_query_param_not_query. }
    rewrite Eq. unfold build_headers, build_body. simpl.
    rewrite !assoc_setitem_other by reflexivity. reflexivity.
  - intros Hq.
    assert (Ek : forall query_params,
               for_each add_query_param before [] = Ok query_params ->
               forall c b, create_postman_request path method (JDict d) c b =
                           Raise KeyError).
    { intros qs Hb c b. unfold create_postman_request.
      rewrite (build_query_params_list _ Hp), for_each_app, Hb. simpl.
      now rewrite add_query_param_nameless. }
    assert (Ea : exists e, forall c b,
                 create_postman_request path method (JDict d) c b = Raise e).
    { destruct (for_each add_query_param before []) as [qs | e] eqn:Eb.
      - exists KeyError. now apply (Ek qs).
      - exists e. intros c b. unfold create_postman_request.
        now rewrite (build_query_params_list _ Hp), for_each_app, Eb. }
    repeat split.
    + destruct Ea as (e & He). exists e. apply He.
    + intros qs Hb. now apply (Ek qs).
    + intros openapi_spec methods Hpath Hmeth Hr Ht.
      now apply (failing_operation_aborts openapi_spec path methods method (JDict d)).
Qed.

Lemma nameless_parameter_dropped_unless_query_witness :
  (Py.assoc "parameters" Samples.nameless_header_operation =
     Some (JList ([Samples.limit_parameter] ++
                  JDict Samples.nameless_header_parameter :: [])) /\
   Py.assoc "name" Samples.nameless_header_parameter = None) /\
  create_postman_request "/kpis" "get" (JDict Samples.nameless_header_operation)
    (JDict []) (JDict []) =
  create_postman_request "/kpis" "get"
    (JDict [("parameters", JList [Samples.limit_parameter])]) (JDict []) (JDict []).
Proof.
  split; [split; reflexivity |].
  apply (proj1 (@nameless_parameter_dropped_unless_query
                  "/kpis" "get" Samples.nameless_header_operation
                  [Samples.limit_parameter] Samples.nameless_header_parameter []
                  (JDict []) (JDict []) eq_refl eq_refl)).
  discriminate.
Defined.

(** C2 (as stated) fails: a [query] parameter without [name] stops the build
    of its operation and the compilation of the whole document. *)
Lemma nameless_query_parameter_aborts :
  Py.assoc "name" Samples.nameless_query_parameter = None /\
  create_postman_request "/kpis" "get" (JDict Samples.nameless_query_operation)
    (JDict []) (JDict []) = Raise KeyError /\
  create_postman_collection Samples.nameless_query_document = Raise KeyError.
Proof. repeat split. Qed.

(** C3 (as amended).  A document without [info] never compiles: an error is
    raised and no collection is returned.  A document that lacks only [paths]
    compiles, to a collection with its metadata, no folder and the fixed
    variables. *)
Theorem missing_info_is_fatal_missing_paths_is_not d :
  (Py.assoc "info" d = None ->
   exists e, create_postman_collection (JDict d) = Raise e) /\
  (Py.assoc "paths" d = None ->
   forall info title description,
     Py.assoc "info" d = Some info ->
     field "title" info = Some title ->
     field "description" info = Some description ->
     create_postman_collection (JDict d) =
     Ok (JDict [("info", JDict [("name", title);
                                ("description", description);
                                ("schema", JStr collection_schema)]);
                ("item", JList []);
                ("variable", JList collection_variables)])).
Proof.
  split.
  - intros Hi. unfold create_postman_collection.
    destruct (group_operations (JDict d)) as [g | e]; simpl; [| eauto].
    destruct (collect (build_folder (JDict d)) g) as [items | e]; simpl; [| eauto].
    rewrite Hi. simpl. eauto.
  - intros Hp info title description Hi Ht Hd.
    unfold create_postman_collection, group_operations. simpl.
    rewrite Hp. simpl. rewrite Hi. simpl.
    destruct info as [| | | | | i]; try discriminate. simpl in *.
    now rewrite Ht, Hd.
Qed.

Lemma missing_info_is_fatal_missing_paths_is_not_witness :
  (exists e, create_postman_collection (JDict Samples.without_info) = Raise e) /\
  collection_folders (Samples.compiled (JDict Samples.without_paths)) = [].
Proof.
  split.
  - apply (proj1 (missing_info_is_fatal_missing_paths_is_not Samples.without_info)).
    reflexivity.
  - reflexivity.
Defined.

(** C3 (as stated) fails: a document with [info] and no [paths] compiles. *)
Lemma missing_paths_compiles :
  Py.assoc "paths" Samples.without_paths = None /\
  create_postman_collection (JDict Samples.without_paths) =
  Ok (JDict [("info", JDict [("name", JStr "API");
                             ("description", JStr "Sample");
                             ("schema", JStr collection_schema)]);
             ("item", JList []);
             ("variable", JList collection_variables)]).
Proof. split; reflexivity. Qed.

(** C4.  An operation whose JSON request body carries a schema reference that
    [components.schemas] does not resolve is built all the same: the body step
    yields the generic placeholder, and the item is the very item built with a
    registry that declares the schema. *)
Theorem unresolved_reference_keeps_item_and_stub
  path method operation reference components declaring base_url_vars item :
  declared_json_schema operation = Some (JDict reference) ->
  Py.assoc "$ref" reference <> None ->
  get_request_body_schema (JDict reference) components = Ok JNull ->
  create_postman_request path method operation declaring base_url_vars = Ok item ->
  build_body operation = Ok generic_body /\
  create_postman_request path method operation components base_url_vars = Ok item /\
  request_body item = Some generic_body.
Proof.
  intros Hs Href _ Hb.
  assert (Ht : Py.truthy (JDict reference) = true).
  { destruct reference; [now elim Href | reflexivity]. }
  pose proof (build_body_declared _ Hs) as Eb. rewrite Ht in Eb.
  split; [exact Eb |]. split; [exact Hb |].
  apply built_request_body in Hb. destruct Hb as (body & Hbody & ->).
  rewrite Eb in Hbody. inversion Hbody; subst. reflexivity.
Qed.

Lemma unresolved_reference_keeps_item_and_stub_witness :
  get_request_body_schema (JDict Samples.dangling_reference) (JDict []) = Ok JNull /\
  create_postman_request "/kpis" "post" Samples.dangling_operation (JDict []) (JDict [])
    = Ok Samples.dangling_item /\
  request_body Samples.dangling_item = Some generic_body.
Proof.
  split; [reflexivity |].
  apply (@unresolved_reference_keeps_item_and_stub
           "/kpis" "post" Samples.dangling_operation Samples.dangling_reference
           (JDict []) Samples.declaring_components (JDict []) Samples.dangling_item);
    [reflexivity | discriminate | reflexivity | reflexivity].
Defined.

(** C5 (as amended).  For every path template in which [{p}] is a whole
    [/]-separated segment, the raw URL of the built request contains the
    token [{{p}}]. *)
Theorem whole_segment_placeholder_in_raw_url
  path method operation components base_url_vars item p :
  In ("{" ++ p ++ "}") (Str.split "/"%char path) ->
  create_postman_request path method operation components base_url_vars = Ok item ->
  exists raw,
    request_raw_url item = Some (JStr raw) /\
    Str.contains ("{{" ++ p ++ "}}") raw = true.
Proof.
  intros Hin H. exists (raw_url path). split.
  - eapply built_request_raw_url. exact H.
  - now apply raw_url_placeholder.
Qed.

Lemma whole_segment_placeholder_in_raw_url_witness :
  create_postman_request "/users/{id}" "get" Samples.users_operation
    (JDict []) (JDict []) = Ok Samples.users_item /\
  exists raw,
    request_raw_url Samples.users_item = Some (JStr raw) /\
    Str.contains "{{id}}" raw = true.
Proof.
  split; [reflexivity |].
  apply (@whole_segment_placeholder_in_raw_url
           "/users/{id}" "get" Samples.users_operation (JDict []) (JDict [])
           Samples.users_item "id").
  - simpl. tauto.
  - reflexivity.
Defined.

(** C5 (as stated) fails: in [/users/{id}.json] the template contains [{id}]
    but the raw URL keeps the segment as it is and does not contain [{{id}}]. *)
Lemma embedded_placeholder_not_converted :
  Str.contains "{id}" "/users/{id}.json" = true /\
  create_postman_request "/users/{id}.json" "get" (JDict []) (JDict []) (JDict [])
    = Ok Samples.export_item /\
  request_raw_url Samples.export_item =
    Some (JStr "{{scheme}}://{{host}}:{{port}}/users/{id}.json") /\
  Str.contains "{{id}}" "{{scheme}}://{{host}}:{{port}}/users/{id}.json" = false.
Proof. repeat split. Qed.

(** C6.  When a document compiles, its folders are, in order, the distinct raw
    tag strings in order of first occurrence along the traversal (paths in
    declaration order, methods in per-path order, tags in per-operation
    order); no raw tag has two folders, and the folder of a tag holds the items
    built from exactly the operations carrying that tag, in traversal order. *)
Theorem folders_follow_first_tag_occurrence openapi_spec collection :
  create_postman_collection openapi_spec = Ok collection ->
  exists tags : list string,
    first_occurrences (List.map fst (tag_stream openapi_spec)) = List.map JStr tags /\
    NoDup tags /\
    Forall2 (fun folder tag =>
               field "name" folder = Some (JStr (folder_name tag)) /\
               Forall2 (fun op item => build_request openapi_spec op = Ok item)
                       (tagged (JStr tag) (tag_stream openapi_spec))
                       (folder_items folder))
            (collection_folders collection) tags.
Proof.
  intros H. apply create_postman_collection_ok in H. destruct H as (g & Hg & Hc).
  apply group_operations_grouped in Hg. destruct Hg as ((Hops & Hd & _) & Hk & _).
  apply collect_Forall2 in Hc.
  destruct (@folders_of_groups _ _ _ _ Hops Hc) as (tags & Ht & Hf).
  exists tags. rewrite <- Hk, Ht. repeat split; [| exact Hf].
  apply distinct_strings. now rewrite <- Ht.
Qed.

Lemma folders_follow_first_tag_occurrence_witness :
  create_postman_collection Samples.interleaved = Ok Samples.interleaved_collection /\
  exists tags : list string,
    first_occurrences (List.map fst (tag_stream Samples.interleaved)) =
      List.map JStr tags /\
    NoDup tags /\
    Forall2 (fun folder tag =>
               field "name" folder = Some (JStr (folder_name tag)) /\
               Forall2 (fun op item => build_request Samples.interleaved op = Ok item)
                       (tagged (JStr tag) (tag_stream Samples.interleaved))
                       (folder_items folder))
            (collection_folders Samples.interleaved_collection) tags.
Proof.
  split; [reflexivity |].
  apply (@folders_follow_first_tag_occurrence
           Samples.interleaved Samples.interleaved_collection).
  reflexivity.
Defined.

(** C7.  Every entry of the security requirement list that contains the
    bearer scheme [BearerAuth] contributes one
    [Authorization: Bearer {{bearerToken}}] header, in order; an operation
    with [security: [{"BearerAuth": []}]] gets exactly that one header. *)
Theorem bearer_requirement_adds_authorization_header
  path method operation components base_url_vars security reqs item :
  field "security" operation = Some security ->
  Py.iter security = Ok reqs ->
  create_postman_request path method operation components base_url_vars = Ok item ->
  request_headers item = flat_map requirement_headers reqs /\
  List.length (filter is_authorization_header (request_headers item)) =
    List.length (filter (has_key "BearerAuth") reqs) /\
  (reqs = [JDict [("BearerAuth", JList [])]] ->
   request_headers item = [bearer_header]).
Proof.
  intros Hs Hi H. apply built_request_headers in H.
  assert (E : request_headers item = flat_map requirement_headers reqs)
    by (eapply build_headers_ok; eauto).
  split; [exact E |]. split.
  - rewrite E. apply count_authorization_headers.
  - intros ->. exact E.
Qed.

Lemma bearer_requirement_adds_authorization_header_witness :
  create_postman_request "/me" "get" Samples.bearer_operation (JDict []) (JDict [])
    = Ok Samples.bearer_item /\
  request_headers Samples.bearer_item = [bearer_header].
Proof.
  split; [reflexivity |].
  apply (@bearer_requirement_adds_authorization_header
           "/me" "get" Samples.bearer_operation (JDict []) (JDict [])
           (JList [JDict [("BearerAuth", JList [])]])
           [JDict [("BearerAuth", JList [])]] Samples.bearer_item);
    reflexivity.
Defined.



(** C10.  A built item has no [body] when the operation's [application/json]
    entry has no [schema] or a null one; an item has a [body] only when that
    entry carries a schema that is not null, and the body is then the generic
    stub. *)
Theorem body_stub_requires_schema
  path method operation components base_url_vars item :
  create_postman_request path method operation components base_url_vars = Ok item ->
  (declared_json_schema operation = None \/
   declared_json_schema operation = Some JNull ->
   request_body item = None) /\
  (forall body,
     request_body item = Some body ->
     body = generic_body /\
     exists schema,
       declared_json_schema operation = Some schema /\ schema <> JNull).
Proof.
  intros H. apply built_request_body in H. destruct H as (body & Hb & Er).
  apply build_body_ok in Hb. subst body. unfold expected_body in Er.
  destruct (declared_json_schema operation) as [schema |] eqn:Es.
  - destruct (Py.truthy schema) eqn:Et; simpl in Er.
    + split.
      * intros [Hn | Hn]; [discriminate |]. inversion Hn; subst. discriminate.
      * intros body Hbody. rewrite Er in Hbody. inversion Hbody; subst.
        split; [reflexivity |]. exists schema. split; [reflexivity |].
        now apply truthy_not_null.
    + split; [intros _; exact Er |].
      intros body Hbody. rewrite Er in Hbody. discriminate.
  - simpl in Er. split; [intros _; exact Er |].
    intros body Hbody. rewrite Er in Hbody. discriminate.
Qed.

Lemma body_stub_requires_schema_witness :
  create_postman_request "/kpis" "post" Samples.schemaless_operation
    (JDict []) (JDict []) = Ok Samples.schemaless_item /\
  request_body Samples.schemaless_item = None.
Proof.
  split; [reflexivity |].
  apply (proj1 (@body_stub_requires_schema
                  "/kpis" "post" Samples.schemaless_operation (JDict []) (JDict [])
                  Samples.schemaless_item eq_refl)).
  left. reflexivity.
Defined.

(** * Further properties of the compiler *)

(** ** Splitting and joining paths *)

Lemma split_not_nil sep s : Str.split sep s <> [].
Proof.
  destruct s as [| c s]; simpl; [discriminate |].
  destruct (Ascii.eqb c sep); [discriminate |].
  destruct (Str.split sep s); discriminate.
Qed.

Lemma split_app_sep sep a b :
  Str.split sep (a ++ String sep b) = (Str.split sep a ++ Str.split sep b)%list.
Proof.
  induction a as [| c a IH]; simpl.
  - now rewrite Ascii.eqb_refl.
  - destruct (Ascii.eqb c sep); [now rewrite IH |].
    rewrite IH. pose proof (split_not_nil sep a) as Hn.
    destruct (Str.split sep a); [now elim Hn | reflexivity].
Qed.

Lemma split_no_sep sep s :
  Py.has_char sep s = false -> Str.split sep s = [s].
Proof.
  induction s as [| c s IH]; simpl; intros H; [reflexivity |].
  apply orb_false_iff in H. destruct H as (Hc & Hs).
  now rewrite Hc, (IH Hs).
Qed.

Lemma join_split sep s : Str.join (String sep "") (Str.split sep s) = s.
Proof.
  unfold Str.join. induction s as [| c s IH]; simpl; [reflexivity |].
  destruct (Ascii.eqb c sep) eqn:E.
  - apply Ascii.eqb_eq in E. subst c.
    pose proof (split_not_nil sep s) as Hn.
    destruct (Str.split sep s) as [| seg segs] eqn:Es; [now elim Hn |].
    change (String.concat (String sep "") ("" :: seg :: segs))
      with (String sep (String.concat (String sep "") (seg :: segs))).
    now rewrite IH.
  - pose proof (split_not_nil sep s) as Hn.
    destruct (Str.split sep s) as [| seg segs] eqn:Es; [now elim Hn |].
    destruct segs as [| seg' segs]; simpl in *; now rewrite IH.
Qed.

Lemma last_segment prefix name :
  Py.has_char "/"%char name = false ->
  List.last (Str.split "/"%char (prefix ++ "/" ++ name)) "" = name.
Proof.
  intros H. change (prefix ++ "/" ++ name) with (prefix ++ String "/"%char name).
  rewrite split_app_sep, (split_no_sep _ _ H). apply last_last.
Qed.

(** ** The schema resolver *)

(** X1.  The resolver looks a reference up by its last [/]-separated segment
    only: whatever pointer precedes the name, the result is the schema
    registered under that name in [components.schemas], and [None] when there
    is none. *)
Theorem reference_resolves_by_last_segment
  reference components schemas prefix name :
  Py.assoc "$ref" reference = Some (JStr (prefix ++ "/" ++ name)) ->
  Py.has_char "/"%char name = false ->
  Py.assoc "schemas" components = Some (JDict schemas) ->
  get_request_body_schema (JDict reference) (JDict components) =
  Ok (or_default JNull (Py.assoc name schemas)).
Proof.
  intros Hr Hn Hs. unfold get_request_body_schema.
  assert (Ht : Py.truthy (JDict reference) = true).
  { destruct reference; [discriminate | reflexivity]. }
  rewrite Ht. simpl. rewrite Hr. simpl. rewrite (last_segment _ _ Hn), Hs. simpl.
  now destruct (Py.assoc name schemas).
Qed.

Lemma reference_resolves_by_last_segment_witness :
  get_request_body_schema
    (JDict [("$ref", JStr "other.yaml#/definitions/Missing")])
    Samples.declaring_components =
  Ok (JDict [("type", JStr "object")]).
Proof.
  apply (@reference_resolves_by_last_segment
           [("$ref", JStr "other.yaml#/definitions/Missing")]
           [("schemas", JDict [("Missing", JDict [("type", JStr "object")])])]
           [("Missing", JDict [("type", JStr "object")])]
           "other.yaml#/definitions" "Missing");
    reflexivity.
Defined.

(** X2.  On a schema object and a components object that are dictionaries,
    with a string [$ref] and a dictionary [schemas] where they are present,
    the resolver never raises; it answers [None] when the schema object is
    empty or has no [$ref], and when [components] has no [schemas]. *)
Theorem resolver_degrades_to_none reference components :
  absent_or is_string (Py.assoc "$ref" reference) = true ->
  absent_or is_dict (Py.assoc "schemas" components) = true ->
  (exists schema,
      get_request_body_schema (JDict reference) (JDict components) = Ok schema) /\
  (Py.assoc "$ref" reference = None ->
   get_request_body_schema (JDict reference) (JDict components) = Ok JNull) /\
  (Py.assoc "schemas" components = None ->
   get_request_body_schema (JDict reference) (JDict components) = Ok JNull).
Proof.
  intros Hr Hs. unfold get_request_body_schema.
  destruct reference as [| entry reference'] eqn:Eref;
    [simpl; repeat split; eauto |].
  rewrite <- Eref in *.
  assert (Ht : Py.truthy (JDict reference) = true) by now subst reference.
  rewrite Ht. clear Ht Eref. simpl.
  destruct (Py.assoc "$ref" reference) as [[| | | r | |] |]; try discriminate;
    simpl; [| repeat split; eauto].
  destruct (Py.assoc "schemas" components) as [[| | | | | schemas] |];
    try discriminate; simpl.
  - destruct (Py.assoc _ schemas); repeat split; eauto; discriminate.
  - repeat split; eauto.
Qed.

Lemma resolver_degrades_to_none_witness :
  exists schema,
    get_request_body_schema (JDict Samples.dangling_reference) (JDict []) = Ok schema.
Proof.
  apply (proj1 (@resolver_degrades_to_none Samples.dangling_reference []
                  eq_refl eq_refl)).
Defined.

(** ** The built request *)

Lemma url_parts_verbatim path :
  no_placeholder path = true -> url_parts path = Str.split "/"%char path.
Proof.
  unfold no_placeholder, url_parts. intros H.
  rewrite <- (map_id (Str.split "/"%char path)) at 2.
  apply map_ext_in. intros part Hin.
  rewrite forallb_forall in H. specialize (H part Hin).
  unfold url_part. apply negb_true_iff in H. now rewrite H.
Qed.

(** X3.  A path none of whose segments is wrapped in braces goes into the raw
    URL unchanged, right after the scheme, host and port variables: splitting
    on [/] and joining again loses nothing. *)
Theorem plain_path_kept_verbatim
  path method operation components base_url_vars item :
  no_placeholder path = true ->
  create_postman_request path method operation components base_url_vars = Ok item ->
  request_raw_url item = Some (JStr ("{{scheme}}://{{host}}:{{port}}" ++ path)).
Proof.
  intros Hp H. rewrite (@built_request_raw_url _ _ _ _ _ _ H). unfold raw_url.
  rewrite (url_parts_verbatim _ Hp).
  change "/" with (String "/"%char ""). now rewrite join_split.
Qed.

Lemma plain_path_kept_verbatim_witness :
  request_raw_url Samples.export_item =
  Some (JStr ("{{scheme}}://{{host}}:{{port}}" ++ "/users/{id}.json")).
Proof.
  apply (@plain_path_kept_verbatim "/users/{id}.json" "get" (JDict [])
           (JDict []) (JDict []) Samples.export_item); reflexivity.
Defined.

Lemma built_request_path path method operation components base_url_vars item :
  create_postman_request path method operation components base_url_vars = Ok item ->
  request_path item =
  List.map JStr (filter (fun p => negb (Str.is_empty p)) (url_parts path)).
Proof.
  intros H. apply create_postman_request_ok in H.
  destruct H as (qs & hs & body & name & _ & _ & _ & _ & ->). reflexivity.
Qed.

(** X4.  The [path] list of a built request never holds an empty segment
    (the leading slash, doubled slashes and a trailing slash leave no trace),
    and every segment [{p}] of the template is in it as [{{p}}]. *)
Theorem path_list_has_no_empty_segment
  path method operation components base_url_vars item :
  create_postman_request path method operation components base_url_vars = Ok item ->
  Forall (fun segment => exists s, segment = JStr s /\ s <> "") (request_path item) /\
  (forall p, In ("{" ++ p ++ "}") (Str.split "/"%char path) ->
             In (JStr ("{{" ++ p ++ "}}")) (request_path item)).
Proof.
  intros H. rewrite (@built_request_path _ _ _ _ _ _ H). split.
  - apply Forall_forall. intros segment Hin.
    apply in_map_iff in Hin. destruct Hin as (s & <- & Hs).
    apply filter_In in Hs. destruct Hs as (_ & Hs).
    exists s. split; [reflexivity |]. intros ->. discriminate.
  - intros p Hin. apply in_map. apply filter_In. split.
    + rewrite <- url_part_placeholder. now apply in_map.
    + reflexivity.
Qed.

Lemma path_list_has_no_empty_segment_witness :
  Forall (fun segment => exists s, segment = JStr s /\ s <> "")
         (request_path Samples.users_item) /\
  (forall p, In ("{" ++ p ++ "}") (Str.split "/"%char "/users/{id}") ->
             In (JStr ("{{" ++ p ++ "}}")) (request_path Samples.users_item)).
Proof.
  apply (@path_list_has_no_empty_segment "/users/{id}" "get" Samples.users_operation
           (JDict []) (JDict []) Samples.users_item).
  reflexivity.
Defined.

Lemma add_query_param_ok query_params param query_params' :
  add_query_param query_params param = Ok query_params' ->
  query_params' =
  (query_params ++ (if is_query_param param then [query_entry param] else []))%list.
Proof.
  unfold add_query_param, is_query_param, query_entry. intros H.
  apply bind_ok in H; destruct H as (location & Hl & H).
  destruct param as [| | | | | d]; try discriminate. simpl in *.
  assert (El : location = or_default JNull (Py.assoc "in" d)).
  { destruct (Py.assoc "in" d); now inversion Hl. }
  rewrite <- El. clear Hl El.
  destruct (Py.eq_str location "query"); [| inversion H; now rewrite app_nil_r].
  apply bind_ok in H; destruct H as (key & Hk & H).
  destruct (Py.assoc "name" d) as [name |]; [| discriminate].
  inversion Hk; subst key. simpl in H.
  destruct (Py.assoc "required" d) as [required |];
    destruct (Py.assoc "description" d) as [description |]; simpl in *;
    try destruct (Py.truthy required); simpl in H; now inversion H.
Qed.

Lemma for_each_query_params params query_params query_params' :
  for_each add_query_param params query_params = Ok query_params' ->
  query_params' =
  (query_params ++ List.map query_entry (filter is_query_param params))%list.
Proof.
  revert query_params. induction params as [| param params IH];
    intros query_params H; simpl in H.
  - inversion H. now rewrite app_nil_r.
  - apply bind_ok in H; destruct H as (qs & Hq & H).
    apply add_query_param_ok in Hq. apply IH in H. subst. simpl.
    destruct (is_query_param param); simpl;
      now rewrite <- ?app_assoc, ?app_nil_r.
Qed.

(** X5.  The query list of a built request holds exactly the parameters
    located in the query string, in their declared order: each with its name
    as key, the placeholder [{{name}}] as value when it is required and the
    empty string when it is not, and its description or the empty string.
    Parameters located elsewhere never appear, and an operation without
    [parameters] has an empty query list. *)
Theorem query_list_is_the_query_parameters
  path method operation components base_url_vars item :
  create_postman_request path method operation components base_url_vars = Ok item ->
  (forall parameters params,
      field "parameters" operation = Some parameters ->
      Py.iter parameters = Ok params ->
      request_query item = List.map query_entry (filter is_query_param params)) /\
  (field "parameters" operation = None -> request_query item = []).
Proof.
  intros H. pose proof (@built_request_query _ _ _ _ _ _ H) as Hq.
  apply create_postman_request_ok in H.
  destruct H as (_ & _ & _ & name & _ & _ & _ & Hn & _).
  destruct operation as [| | | | | d]; try discriminate.
  unfold build_query_params in Hq. simpl in *. split.
  - intros parameters params Hf Hi. rewrite Hf in Hq. simpl in Hq.
    rewrite Hi in Hq. simpl in Hq. now apply for_each_query_params in Hq.
  - intros Hf. rewrite Hf in Hq. now inversion Hq.
Qed.

Lemma query_list_is_the_query_parameters_witness :
  request_query
    (Samples.built "/kpis" "get" (JDict Samples.nameless_header_operation)) =
  [JDict [("key", JStr "limit"); ("value", JStr ""); ("description", JStr "")]].
Proof.
  apply (proj1 (@query_list_is_the_query_parameters
                  "/kpis" "get" (JDict Samples.nameless_header_operation)
                  (JDict []) (JDict [])
                  (Samples.built "/kpis" "get" (JDict Samples.nameless_header_operation))
                  eq_refl)
               (JList [Samples.limit_parameter; JDict Samples.nameless_header_parameter])
               [Samples.limit_parameter; JDict Samples.nameless_header_parameter]
               eq_refl eq_refl).
Defined.

Lemma requirement_headers_known security_req :
  Forall (fun header => header = api_key_header \/ header = bearer_header)
         (requirement_headers security_req).
Proof.
  unfold requirement_headers.
  destruct (has_key "ApiKeyAuth" security_req), (has_key "BearerAuth" security_req);
    simpl; repeat (apply Forall_cons; [tauto |]); apply Forall_nil.
Qed.

(** X6.  A built request carries no header but the two authentication
    headers: every header is the [X-API-Key] or the [Authorization] entry, a
    requirement contributes at most two, and an operation without [security]
    has none. *)
Theorem only_authentication_headers
  path method operation components base_url_vars item :
  create_postman_request path method operation components base_url_vars = Ok item ->
  Forall (fun header => header = api_key_header \/ header = bearer_header)
         (request_headers item) /\
  (forall security reqs,
      field "security" operation = Some security ->
      Py.iter security = Ok reqs ->
      List.length (request_headers item) <= 2 * List.length reqs) /\
  (field "security" operation = None -> request_headers item = []).
Proof.
  intros H. pose proof (@built_request_headers _ _ _ _ _ _ H) as Hh.
  apply create_postman_request_ok in H.
  destruct H as (_ & _ & _ & name & _ & _ & _ & Hn & _).
  destruct operation as [| | | | | d]; try discriminate.
  unfold build_headers in Hh. simpl in *.
  destruct (Py.assoc "security" d) as [security |] eqn:Es; simpl in Hh.
  - apply bind_ok in Hh; destruct Hh as (reqs & Hi & Hh).
    apply for_each_auth_headers in Hh. simpl in Hh. rewrite Hh.
    split; [| split; [| discriminate]].
    + apply Forall_flat_map. apply Forall_forall. intros req _.
      apply requirement_headers_known.
    + intros security' reqs' Es' Hi'. inversion Es'; subst security'.
      rewrite Hi in Hi'. inversion Hi'; subst reqs'. clear.
      induction reqs as [| req reqs IH]; simpl; [lia |].
      rewrite length_app. unfold requirement_headers at 1.
      destruct (has_key "ApiKeyAuth" req), (has_key "BearerAuth" req);
        simpl; lia.
  - inversion Hh. repeat split; [constructor | discriminate].
Qed.

Lemma only_authentication_headers_witness :
  Forall (fun header => header = api_key_header \/ header = bearer_header)
         (request_headers Samples.bearer_item).
Proof.
  apply (proj1 (@only_authentication_headers "/me" "get" Samples.bearer_operation
                  (JDict []) (JDict []) Samples.bearer_item eq_refl)).
Defined.

(** X7.  Every built item is a dictionary with exactly the keys [name],
    [request] and [response].  The name is the value of [summary] whenever
    the operation has that key (whatever the value, null included) and
    ["METHOD path"] otherwise; the response list is empty; the request's
    [host] is the one scheme, host and port template. *)
Theorem item_shape path method operation components base_url_vars item :
  create_postman_request path method operation components base_url_vars = Ok item ->
  List.map fst (dict_items item) = ["name"; "request"; "response"] /\
  field "name" item =
    Some (or_default (JStr (Str.upper method ++ " " ++ path))
                     (field "summary" operation)) /\
  field "response" item = Some (JList []) /\
  request_host item = Some (JList [JStr "{{scheme}}://{{host}}:{{port}}"]).
Proof.
  intros H. apply create_postman_request_ok in H.
  destruct H as (qs & hs & body & name & _ & _ & _ & Hn & ->).
  destruct operation as [| | | | | d]; try discriminate. simpl in Hn.
  repeat split. simpl. f_equal.
  destruct (Py.assoc "summary" d); now inversion Hn.
Qed.

Lemma item_shape_witness :
  field "name" Samples.users_item = Some (JStr "GET /users/{id}").
Proof.
  apply (@item_shape "/users/{id}" "get" Samples.users_operation
           (JDict []) (JDict []) Samples.users_item eq_refl).
Defined.

(** ** Folders and their items *)

Lemma Forall2_In_left {A B : Type} (R : A -> B -> Prop) l l' a :
  Forall2 R l l' -> In a l -> exists b, In b l' /\ R a b.
Proof.
  induction 1 as [| x y l l' Hxy _ IH]; intros Hin; [contradiction |].
  destruct Hin as [-> | Hin].
  - exists y. split; [now left | exact Hxy].
  - destruct (IH Hin) as (b & Hb & Hab). exists b. split; [now right | exact Hab].
Qed.

Lemma Forall2_In_right {A B : Type} (R : A -> B -> Prop) l l' b :
  Forall2 R l l' -> In b l' -> exists a, In a l /\ R a b.
Proof.
  induction 1 as [| x y l l' Hxy _ IH]; intros Hin; [contradiction |].
  destruct Hin as [-> | Hin].
  - exists x. split; [now left | exact Hxy].
  - destruct (IH Hin) as (a & Ha & Hab). exists a. split; [now right | exact Hab].
Qed.

Lemma first_occurrences_from_In seen keys k :
  In k (first_occurrences_from seen keys) -> In k keys.
Proof.
  revert seen. induction keys as [| x keys IH]; intros seen H; [contradiction |].
  simpl in H. destruct (existsb _ seen).
  - right. eapply IH. exact H.
  - destruct H as [-> | H]; [now left | right; eapply IH; exact H].
Qed.

Lemma key_eqb_string k t : Py.key_eqb k (JStr t) = true -> k = JStr t.
Proof.
  destruct k; simpl; try discriminate. intros H.
  apply String.eqb_eq in H. now subst.
Qed.

Lemma tagged_In k stream op :
  In op (tagged k stream) <-> exists tag, In (tag, op) stream /\ Py.key_eqb k tag = true.
Proof.
  unfold tagged. rewrite in_map_iff. split.
  - intros ((tag, op') & E & Hin). simpl in E. subst op'.
    apply filter_In in Hin. exists tag. tauto.
  - intros (tag & Hin & Hk). exists (tag, op). split; [reflexivity |].
    apply filter_In. tauto.
Qed.

Lemma tag_stream_In openapi_spec tag path method operation :
  In (tag, (path, method, operation)) (tag_stream openapi_spec) <->
  In (path, method, operation) (extract_operations openapi_spec) /\
  In tag (operation_tags operation).
Proof.
  unfold tag_stream. rewrite in_flat_map. split.
  - intros (op & Hop & Hin). apply in_map_iff in Hin.
    destruct Hin as (tag' & E & Htag). inversion E; subst. tauto.
  - intros (Hop & Htag). exists (path, method, operation). split; [exact Hop |].
    apply in_map_iff. exists tag. tauto.
Qed.

Lemma extract_operations_recognized openapi_spec path method operation :
  In (path, method, operation) (extract_operations openapi_spec) ->
  recognized method = true.
Proof.
  unfold extract_operations. rewrite in_flat_map. intros (pe & _ & Hin).
  apply in_flat_map in Hin. destruct Hin as (me & _ & Hin).
  destruct (recognized (fst me)) eqn:E; [| contradiction].
  destruct Hin as [Heq | []]. inversion Heq; subst. exact E.
Qed.

(** The groups behind the folders of a compiled collection. *)
Lemma compiled_groups openapi_spec collection :
  create_postman_collection openapi_spec = Ok collection ->
  exists g,
    grouped (tag_stream openapi_spec) g /\
    group_keys g = first_occurrences (List.map fst (tag_stream openapi_spec)) /\
    all_hashable (tag_stream openapi_spec) = true /\
    Forall2 (fun group folder => build_folder openapi_spec group = Ok folder)
            g (collection_folders collection).
Proof.
  intros H. apply create_postman_collection_ok in H. destruct H as (g & Hg & Hc).
  exists g. pose proof (group_operations_stream _ Hg) as (_ & Hh).
  apply group_operations_grouped in Hg. destruct Hg as (Hgr & Hk & _).
  split; [exact Hgr |]. split; [exact Hk |]. split; [exact Hh |].
  now apply collect_Forall2.
Qed.

(** Every item of every folder is built from an operation of the traversal
    that carries the folder's tag. *)
Lemma folder_item_origin openapi_spec collection folder item :
  create_postman_collection openapi_spec = Ok collection ->
  In folder (collection_folders collection) ->
  In item (folder_items folder) ->
  exists tag op,
    In (JStr tag, op) (tag_stream openapi_spec) /\
    field "name" folder = Some (JStr (folder_name tag)) /\
    build_request openapi_spec op = Ok item.
Proof.
  intros H Hf Hi. apply compiled_groups in H.
  destruct H as (g & (Hops & _ & _) & _ & _ & Hfs).
  destruct (Forall2_In_right _ Hfs Hf) as ((k, ops) & Hg & Hb).
  apply build_folder_ok in Hb. destruct Hb as (tag & items & -> & Hc & ->).
  unfold folder_items in Hi. simpl in Hi.
  apply collect_Forall2 in Hc.
  destruct (Forall2_In_right _ Hc Hi) as (op & Hop & Hbuilt).
  rewrite Forall_forall in Hops. pose proof (Hops _ Hg) as Eops. simpl in Eops.
  rewrite Eops in Hop. apply tagged_In in Hop. destruct Hop as (tag' & Hin & Hk).
  rewrite key_eqb_sym in Hk. apply key_eqb_string in Hk. subst tag'.
  exists tag, op. repeat split; assumption.
Qed.

(** Every tag membership of the traversal has its item in the folder of its
    tag. *)
Lemma membership_item openapi_spec collection tag op :
  create_postman_collection openapi_spec = Ok collection ->
  In (tag, op) (tag_stream openapi_spec) ->
  exists name folder item,
    tag = JStr name /\
    In folder (collection_folders collection) /\
    field "name" folder = Some (JStr (folder_name name)) /\
    In item (folder_items folder) /\
    build_request openapi_spec op = Ok item.
Proof.
  intros H Hin. apply compiled_groups in H.
  destruct H as (g & (Hops & _ & Hs) & _ & _ & Hfs).
  rewrite Forall_forall in Hs. pose proof (Hs _ Hin) as Hk. simpl in Hk.
  apply existsb_exists in Hk. destruct Hk as (k & Hkin & Hk).
  apply in_map_iff in Hkin. destruct Hkin as ((k', ops) & Ek & Hg).
  simpl in Ek. subst k'.
  destruct (Forall2_In_left _ Hfs Hg) as (folder & Hf & Hb).
  apply build_folder_ok in Hb. destruct Hb as (name & items & -> & Hc & ->).
  simpl in Hk. destruct tag as [| | | t | |]; try discriminate.
  apply String.eqb_eq in Hk. subst t.
  rewrite Forall_forall in Hops. pose proof (Hops _ Hg) as Eops. simpl in Eops.
  assert (Hop : In op ops).
  { rewrite Eops. apply tagged_In. exists (JStr name). split; [exact Hin |].
    simpl. apply String.eqb_refl. }
  apply collect_Forall2 in Hc.
  destruct (Forall2_In_left _ Hc Hop) as (item & Hi & Hbuilt).
  exists name, (JDict [("name", JStr (folder_name name)); ("item", JList items)]), item.
  repeat split; assumption.
Qed.

Lemma recognized_upper method :
  recognized method = true -> In (Str.upper method) http_verbs.
Proof.
  unfold recognized. intros H. apply existsb_exists in H.
  destruct H as (m & Hin & E). apply String.eqb_eq in E.
  rewrite <- upper_lower, E. clear E.
  repeat (destruct Hin as [<- | Hin]; [simpl; tauto |]). contradiction.
Qed.

Lemma build_request_ok openapi_spec path method operation item :
  build_request openapi_spec (path, method, operation) = Ok item ->
  exists components,
    create_postman_request path method operation components (JDict []) = Ok item.
Proof.
  unfold build_request. intros H.
  apply bind_ok in H. destruct H as (components & _ & H). eauto.
Qed.

(** X8.  Every request of a compiled collection carries one of the seven
    upper-case verbs GET, POST, PUT, DELETE, PATCH, HEAD, OPTIONS, however the
    document spells its method keys. *)
Theorem emitted_methods_are_the_seven_verbs openapi_spec collection folder item :
  create_postman_collection openapi_spec = Ok collection ->
  In folder (collection_folders collection) ->
  In item (folder_items folder) ->
  exists verb, In verb http_verbs /\ request_method item = Some (JStr verb).
Proof.
  intros H Hf Hi.
  destruct (@folder_item_origin _ _ _ _ H Hf Hi)
    as (tag & ((path, method), operation) & Hin & _ & Hb).
  apply tag_stream_In in Hin. destruct Hin as (Hop & _).
  apply extract_operations_recognized in Hop.
  apply build_request_ok in Hb. destruct Hb as (components & Hb).
  exists (Str.upper method). split; [now apply recognized_upper |].
  eapply built_request_method. exact Hb.
Qed.

Lemma emitted_methods_are_the_seven_verbs_witness :
  forallb
    (fun folder =>
       forallb (fun item =>
                  existsb (fun verb => Py.eq_str (or_default JNull (request_method item)) verb)
                          http_verbs)
               (folder_items folder))
    (collection_folders Samples.interleaved_collection) = true /\
  exists verb,
    In verb http_verbs /\
    request_method
      (Samples.built "/metrics" "POST" (JDict [Samples.tags ["admin"; "metrics"]])) =
    Some (JStr verb).
Proof.
  split; [reflexivity |].
  apply (@emitted_methods_are_the_seven_verbs
           Samples.interleaved Samples.interleaved_collection
           (JDict [("name", JStr "Admin");
                   ("item",
                    JList [Samples.built "/metrics" "POST"
                             (JDict [Samples.tags ["admin"; "metrics"]]);
                           Samples.built "/metrics/{name}" "delete"
                             (JDict [Samples.tags ["admin"]])])])).
  - reflexivity.
  - right. left. reflexivity.
  - left. reflexivity.
Defined.

(** X9.  A compiled collection accounts for every tag membership of the
    traversal: the tag is a string, its folder is in the collection under the
    tag's display name, and the folder holds the item built from the
    operation.  A document with a tag that is not a string therefore does not
    compile, and neither does one with a tagged operation that cannot be
    built. *)
Theorem every_tag_membership_has_its_item openapi_spec collection tag op :
  create_postman_collection openapi_spec = Ok collection ->
  In (tag, op) (tag_stream openapi_spec) ->
  exists name folder item,
    tag = JStr name /\
    In folder (collection_folders collection) /\
    field "name" folder = Some (JStr (folder_name name)) /\
    In item (folder_items folder) /\
    build_request openapi_spec op = Ok item.
Proof. intros H Hin. exact (@membership_item _ _ _ _ H Hin). Qed.

Lemma every_tag_membership_has_its_item_witness :
  exists name folder item,
    JStr "admin" = JStr name /\
    In folder (collection_folders Samples.interleaved_collection) /\
    field "name" folder = Some (JStr (folder_name name)) /\
    In item (folder_items folder) /\
    build_request Samples.interleaved
      ("/metrics/{name}", "delete", JDict [Samples.tags ["admin"]]) = Ok item.
Proof.
  apply (@every_tag_membership_has_its_item
           Samples.interleaved Samples.interleaved_collection).
  - reflexivity.
  - vm_compute. tauto.
Defined.

(** X10.  In a compiled collection, an operation with a recognized method
    and no [tags] key has its item in a folder named [Untagged]. *)
Theorem untagged_operation_lands_in_untagged
  openapi_spec collection path method operation :
  create_postman_collection openapi_spec = Ok collection ->
  In (path, method, operation) (extract_operations openapi_spec) ->
  field "tags" operation = None ->
  exists folder item,
    In folder (collection_folders collection) /\
    field "name" folder = Some (JStr "Untagged") /\
    In item (folder_items folder) /\
    build_request openapi_spec (path, method, operation) = Ok item.
Proof.
  intros H Hop Ht.
  assert (Hin : In (JStr "untagged", (path, method, operation))
                   (tag_stream openapi_spec)).
  { apply tag_stream_In. split; [exact Hop |].
    unfold operation_tags. rewrite Ht. now left. }
  destruct (@membership_item _ _ _ _ H Hin) as (name & folder & item & E & Hf & Hn & Hi & Hb).
  inversion E; subst name. exists folder, item. repeat split; assumption.
Qed.

Lemma untagged_operation_lands_in_untagged_witness :
  exists folder item,
    In folder (collection_folders Samples.interleaved_collection) /\
    field "name" folder = Some (JStr "Untagged") /\
    In item (folder_items folder) /\
    build_request Samples.interleaved ("/logs", "get", JDict []) = Ok item.
Proof.
  apply (@untagged_operation_lands_in_untagged
           Samples.interleaved Samples.interleaved_collection).
  - reflexivity.
  - vm_compute. tauto.
  - reflexivity.
Defined.

(** X11.  A compiled collection has no empty folder, and it has no folder at
    all exactly when no operation with a recognized method carries a tag
    (no such operation, or empty [tags] lists only). *)
Theorem no_folder_is_empty openapi_spec collection :
  create_postman_collection openapi_spec = Ok collection ->
  Forall (fun folder => folder_items folder <> []) (collection_folders collection) /\
  (collection_folders collection = [] <-> tag_stream openapi_spec = []).
Proof.
  intros H. apply compiled_groups in H.
  destruct H as (g & (Hops & _ & _) & Hk & Hh & Hfs). split.
  - apply Forall_forall. intros folder Hf.
    destruct (Forall2_In_right _ Hfs Hf) as ((k, ops) & Hg & Hb).
    apply build_folder_ok in Hb. destruct Hb as (tag & items & -> & Hc & ->).
    apply collect_length in Hc. unfold folder_items. simpl.
    assert (Hkey : In (JStr tag) (List.map fst (tag_stream openapi_spec))).
    { apply (first_occurrences_from_In []). unfold first_occurrences in Hk.
      rewrite <- Hk. apply (in_map fst _ _ Hg). }
    apply in_map_iff in Hkey. destruct Hkey as ((tag', op) & E & Hin).
    simpl in E. subst tag'.
    rewrite Forall_forall in Hops. pose proof (Hops _ Hg) as Eops. simpl in Eops.
    assert (Hop : In op ops).
    { rewrite Eops. apply tagged_In. exists (JStr tag). split; [exact Hin |].
      simpl. apply String.eqb_refl. }
    intros ->. destruct ops; [contradiction | discriminate].
  - pose proof (Forall2_length Hfs) as Hlen.
    assert (Eg : List.length g =
                 List.length (first_occurrences (List.map fst (tag_stream openapi_spec)))).
    { rewrite <- Hk. unfold group_keys. now rewrite length_map. }
    split.
    + intros E. rewrite E in Hlen. simpl in Hlen. rewrite Hlen in Eg.
      destruct (tag_stream openapi_spec); [reflexivity | discriminate].
    + intros E. rewrite E in Eg. simpl in Eg. rewrite Eg in Hlen.
      destruct (collection_folders collection); [reflexivity | discriminate].
Qed.

Lemma no_folder_is_empty_witness :
  Forall (fun folder => folder_items folder <> [])
         (collection_folders Samples.interleaved_collection).
Proof.
  apply (proj1 (@no_folder_is_empty Samples.interleaved
                  Samples.interleaved_collection eq_refl)).
Defined.

(** ** Documents that always compile *)

Lemma for_each_succeeds {A S : Type} (body : S -> A -> result S) (l : list A) :
  (forall a, In a l -> forall s, exists s', body s a = Ok s') ->
  forall s, exists s', for_each body l s = Ok s'.
Proof.
  induction l as [| a l IH]; intros Hbody s; simpl; [eauto |].
  destruct (Hbody a (or_introl eq_refl) s) as (s1 & ->). simpl.
  apply IH. intros a' Hin. apply Hbody. now right.
Qed.

Lemma collect_succeeds {A B : Type} (f : A -> result B) (l : list A) :
  (forall a, In a l -> exists b, f a = Ok b) -> exists bs, collect f l = Ok bs.
Proof.
  induction l as [| a l IH]; intros Hf; simpl; [eauto |].
  destruct (Hf a (or_introl eq_refl)) as (b & ->). simpl.
  destruct IH as (bs & ->); [intros a' Hin; apply Hf; now right |].
  simpl. eauto.
Qed.

Lemma add_query_param_succeeds param :
  well_formed_parameter param = true ->
  forall query_params, exists query_params',
    add_query_param query_params param = Ok query_params'.
Proof.
  unfold well_formed_parameter, is_query_param, add_query_param.
  destruct param as [| | | | | d]; try discriminate. simpl. intros H query_params.
  destruct (Py.assoc "in" d) as [location |]; simpl in *.
  - destruct (Py.eq_str location "query"); simpl in *; [| eauto].
    destruct (Py.assoc "name" d) as [name |]; [| discriminate]. simpl.
    destruct (Py.assoc "required" d) as [required |];
      destruct (Py.assoc "description" d); simpl;
      try destruct (Py.truthy required); simpl; eauto.
  - eauto.
Qed.

Lemma build_query_params_succeeds d :
  absent_or (list_of well_formed_parameter) (Py.assoc "parameters" d) = true ->
  exists query_params, build_query_params (JDict d) = Ok query_params.
Proof.
  unfold build_query_params. simpl. intros H.
  destruct (Py.assoc "parameters" d) as [[| | | | l |] |]; try discriminate;
    simpl in *; [| eauto].
  apply for_each_succeeds. intros param Hin.
  apply add_query_param_succeeds. rewrite forallb_forall in H. now apply H.
Qed.

Lemma build_headers_succeeds d :
  absent_or (list_of is_dict) (Py.assoc "security" d) = true ->
  exists headers, build_headers (JDict d) = Ok headers.
Proof.
  unfold build_headers. simpl. intros H.
  destruct (Py.assoc "security" d) as [[| | | | l |] |]; try discriminate;
    simpl in *; [| eauto].
  apply for_each_succeeds. intros req Hin headers.
  rewrite forallb_forall in H. specialize (H req Hin).
  destruct req; try discriminate. unfold add_auth_headers. simpl. eauto.
Qed.

Lemma build_body_succeeds d :
  absent_or well_formed_request_body (Py.assoc "requestBody" d) = true ->
  exists body, build_body (JDict d) = Ok body.
Proof.
  unfold build_body, well_formed_request_body. simpl. intros H.
  destruct (Py.assoc "requestBody" d) as [[| | | | | rb] |]; try discriminate;
    simpl in *; [| eauto].
  destruct (Py.assoc "content" rb) as [[| | | | | content] |]; try discriminate;
    simpl in *; [| eauto].
  destruct (Py.assoc "application/json" content) as [[| | | | | media] |];
    try discriminate; simpl in *; [| eauto].
  destruct (Py.assoc "schema" media) as [schema |]; simpl; [| eauto].
  destruct (Py.truthy schema); eauto.
Qed.

Lemma operation_parts operation :
  well_formed_operation operation = true ->
  exists d,
    operation = JDict d /\
    absent_or (list_of well_formed_parameter) (Py.assoc "parameters" d) = true /\
    absent_or (list_of is_dict) (Py.assoc "security" d) = true /\
    absent_or well_formed_request_body (Py.assoc "requestBody" d) = true /\
    absent_or (list_of is_string) (Py.assoc "tags" d) = true.
Proof.
  unfold well_formed_operation. intros H.
  destruct operation as [| | | | | d]; try discriminate. simpl in H.
  repeat (apply andb_true_iff in H; destruct H as (H & ?)).
  exists d. repeat split; assumption.
Qed.

Lemma operation_builds path method operation components base_url_vars :
  well_formed_operation operation = true ->
  exists item,
    create_postman_request path method operation components base_url_vars = Ok item.
Proof.
  intros H. apply operation_parts in H.
  destruct H as (d & -> & Hp & Hs & Hb & _).
  unfold create_postman_request.
  destruct (build_query_params_succeeds _ Hp) as (qs & ->).
  destruct (build_headers_succeeds _ Hs) as (hs & ->).
  destruct (build_body_succeeds _ Hb) as (body & ->). simpl.
  destruct (Py.assoc "summary" d); simpl; eauto.
Qed.

Lemma buildable_operation_builds path method operation components base_url_vars :
  buildable_operation operation = true ->
  exists item,
    create_postman_request path method operation components base_url_vars = Ok item.
Proof.
  unfold buildable_operation. intros H.
  destruct operation as [| | | | | d]; try discriminate. simpl in H.
  apply andb_true_iff in H. destruct H as (H & Hb).
  apply andb_true_iff in H. destruct H as (Hp & Hs).
  unfold create_postman_request.
  destruct (build_query_params_succeeds _ Hp) as (qs & ->).
  destruct (build_headers_succeeds _ Hs) as (hs & ->).
  destruct (build_body_succeeds _ Hb) as (body & ->). simpl.
  destruct (Py.assoc "summary" d); simpl; eauto.
Qed.

(** X12.  An operation object shaped as OpenAPI shapes it is always built,
    for every path and method: a dictionary whose [parameters], if any, is a
    list of dictionaries that have a [name] when they are query parameters,
    whose [security], if any, is a list of dictionaries, and whose
    [requestBody], if any, is a dictionary of dictionaries down to the
    [application/json] entry.  Nothing is asked of its [tags]. *)
Theorem buildable_operation_is_built
  path method operation components base_url_vars :
  buildable_operation operation = true ->
  exists item,
    create_postman_request path method operation components base_url_vars = Ok item /\
    List.map fst (dict_items item) = ["name"; "request"; "response"].
Proof.
  intros H.
  destruct (buildable_operation_builds path method operation components
              base_url_vars H) as (item & Hi).
  exists item. split; [exact Hi |].
  apply create_postman_request_ok in Hi.
  destruct Hi as (qs & hs & body & name & _ & _ & _ & _ & ->). reflexivity.
Qed.

Lemma buildable_operation_is_built_witness :
  exists item,
    create_postman_request "/kpis" "post"
      (JDict [("tags", JNull);
              Samples.json_body [("schema", JDict Samples.dangling_reference)]])
      (JDict []) (JDict []) = Ok item /\
    List.map fst (dict_items item) = ["name"; "request"; "response"].
Proof.
  apply (@buildable_operation_is_built "/kpis" "post"
           (JDict [("tags", JNull);
                   Samples.json_body [("schema", JDict Samples.dangling_reference)]])
           (JDict []) (JDict [])).
  reflexivity.
Defined.

Lemma strings_are_names l :
  forallb is_string l = true -> exists names, l = List.map JStr names.
Proof.
  induction l as [| v l IH]; simpl; intros H; [now exists [] |].
  apply andb_true_iff in H. destruct H as (Hv & Hl).
  destruct (IH Hl) as (names & ->). destruct v as [| | | s | |]; try discriminate.
  now exists (s :: names).
Qed.

Lemma add_operation_succeeds path entry :
  negb (recognized (fst entry)) || well_formed_operation (snd entry) = true ->
  forall g, exists g', add_operation path g entry = Ok g'.
Proof.
  destruct entry as (method, operation). simpl. intros H g.
  unfold add_operation. destruct (recognized method); simpl in *; [| eauto].
  apply operation_parts in H. destruct H as (d & -> & _ & _ & _ & Ht). simpl.
  destruct (Py.assoc "tags" d) as [[| | | | l |] |]; try discriminate; simpl in *.
  - destruct (strings_are_names _ Ht) as (names & ->).
    rewrite for_each_tag_names. eauto.
  - eauto.
Qed.

Lemma add_path_succeeds entry :
  well_formed_path_item (snd entry) = true ->
  forall g, exists g', add_path g entry = Ok g'.
Proof.
  destruct entry as (path, methods). simpl. intros H g.
  destruct methods as [| | | | | ms]; try discriminate. simpl in *.
  apply for_each_succeeds. intros entry Hin.
  apply add_operation_succeeds. rewrite forallb_forall in H. now apply H.
Qed.

Lemma well_formed_paths d :
  absent_or (dict_of (fun entry => well_formed_path_item (snd entry)))
            (Py.assoc "paths" d) = true ->
  exists entries,
    document_paths (JDict d) = JDict entries /\
    Py.get "paths" (JDict []) (JDict d) = Ok (JDict entries) /\
    forallb (fun entry => well_formed_path_item (snd entry)) entries = true.
Proof.
  unfold document_paths. simpl. intros H.
  destruct (Py.assoc "paths" d) as [[| | | | | entries] |]; try discriminate;
    simpl in *.
  - exists entries. auto.
  - exists []. auto.
Qed.

Lemma well_formed_stream d tag path method operation :
  absent_or (dict_of (fun entry => well_formed_path_item (snd entry)))
            (Py.assoc "paths" d) = true ->
  In (tag, (path, method, operation)) (tag_stream (JDict d)) ->
  is_string tag = true /\ well_formed_operation operation = true.
Proof.
  intros Hp Hin. apply tag_stream_In in Hin. destruct Hin as (Hop & Htag).
  destruct (well_formed_paths _ Hp) as (entries & Edoc & _ & Hentries).
  unfold extract_operations in Hop. rewrite Edoc in Hop. simpl in Hop.
  apply in_flat_map in Hop. destruct Hop as ((path', methods) & Hpe & Hop).
  rewrite forallb_forall in Hentries. specialize (Hentries _ Hpe). simpl in *.
  destruct methods as [| | | | | ms]; try discriminate. simpl in *.
  apply in_flat_map in Hop. destruct Hop as ((method', operation') & Hme & Hop).
  rewrite forallb_forall in Hentries. specialize (Hentries _ Hme). simpl in *.
  destruct (recognized method'); [| contradiction]. simpl in Hentries.
  destruct Hop as [E | []]. inversion E; subst. split; [| exact Hentries].
  apply operation_parts in Hentries. destruct Hentries as (o & -> & _ & _ & _ & Ht).
  unfold operation_tags in Htag. simpl in Htag.
  destruct (Py.assoc "tags" o) as [[| | | | l |] |]; try discriminate; simpl in *.
  - rewrite forallb_forall in Ht. now apply Ht.
  - destruct Htag as [<- | []]. reflexivity.
Qed.

(** X13.  A well-formed document always compiles: a dictionary whose [info]
    has a [title] and a [description], and whose [paths], if any, maps each
    path to a dictionary in which every entry with a recognized method is a
    well-formed operation tagged, if at all, by a list of strings.  Entries
    under other keys may hold anything. *)
Theorem well_formed_document_compiles openapi_spec :
  well_formed_document openapi_spec = true ->
  exists collection, create_postman_collection openapi_spec = Ok collection.
Proof.
  unfold well_formed_document. intros H.
  destruct openapi_spec as [| | | | | d]; try discriminate. simpl in H.
  apply andb_true_iff in H. destruct H as (Hp & Hi).
  destruct (well_formed_paths _ Hp) as (entries & _ & Eget & Hentries).
  assert (Hg : exists g, group_operations (JDict d) = Ok g).
  { unfold group_operations. rewrite Eget. simpl.
    apply for_each_succeeds. intros entry Hin.
    apply add_path_succeeds. rewrite forallb_forall in Hentries. now apply Hentries. }
  destruct Hg as (g & Hg). unfold create_postman_collection. rewrite Hg. simpl.
  pose proof (group_operations_grouped _ Hg) as ((Hops & _ & _) & Hk & _).
  assert (Hf : exists folders, collect (build_folder (JDict d)) g = Ok folders).
  { apply collect_succeeds. intros (k, ops) Hin.
    assert (Hkey : In k (List.map fst (tag_stream (JDict d)))).
    { apply (first_occurrences_from_In []). unfold first_occurrences in Hk.
      rewrite <- Hk. apply (in_map fst _ _ Hin). }
    apply in_map_iff in Hkey. destruct Hkey as ((k', ((p, m), o)) & E & Hkin).
    simpl in E. subst k'.
    destruct (well_formed_stream _ _ _ _ _ Hp Hkin) as (Hstr & _).
    destruct k as [| | | tag | |]; try discriminate.
    unfold build_folder.
    destruct (collect_succeeds (build_request (JDict d)) ops) as (items & ->);
      [| simpl; eauto].
    intros ((path, method), operation) Hop.
    rewrite Forall_forall in Hops. pose proof (Hops _ Hin) as Eops. simpl in Eops.
    rewrite Eops in Hop. apply tagged_In in Hop. destruct Hop as (tag' & Hop & _).
    destruct (well_formed_stream _ _ _ _ _ Hp Hop) as (_ & Hwf).
    unfold build_request. simpl.
    destruct (Py.assoc "components" d); simpl; now apply operation_builds. }
  destruct Hf as (folders & ->). simpl.
  destruct (Py.assoc "info" d) as [[| | | | | info] |]; try discriminate.
  simpl in *.
  destruct (Py.assoc "title" info); [| discriminate].
  destruct (Py.assoc "description" info); [| discriminate].
  simpl. eauto.
Qed.

Lemma well_formed_document_compiles_witness :
  exists collection, create_postman_collection Samples.interleaved = Ok collection.
Proof.
  apply (@well_formed_document_compiles Samples.interleaved). reflexivity.
Defined.

(** ** Folder names *)

Lemma cased_to_lower c :
  Str.is_lower (Str.to_lower c) || Str.is_upper (Str.to_lower c) =
  Str.is_lower c || Str.is_upper c.
Proof. destruct c as [[] [] [] [] [] [] [] []]; reflexivity. Qed.

Lemma to_lower_to_lower c : Str.to_lower (Str.to_lower c) = Str.to_lower c.
Proof. destruct c as [[] [] [] [] [] [] [] []]; reflexivity. Qed.

Lemma cased_unhyphen c :
  Str.is_lower (unhyphen c) || Str.is_upper (unhyphen c) =
  Str.is_lower c || Str.is_upper c.
Proof. destruct c as [[] [] [] [] [] [] [] []]; reflexivity. Qed.

Lemma to_lower_unhyphen c : Str.to_lower (unhyphen c) = unhyphen (Str.to_lower c).
Proof. destruct c as [[] [] [] [] [] [] [] []]; reflexivity. Qed.

Lemma to_upper_unhyphen c : Str.to_upper (unhyphen c) = unhyphen (Str.to_upper c).
Proof. destruct c as [[] [] [] [] [] [] [] []]; reflexivity. Qed.

Lemma unhyphen_not_hyphen c : Ascii.eqb (unhyphen c) "-"%char = false.
Proof. destruct c as [[] [] [] [] [] [] [] []]; reflexivity. Qed.

Lemma title_from_lower previous s :
  Str.title_from previous (Str.lower s) = Str.title_from previous s.
Proof.
  unfold Str.lower. revert previous. induction s as [| c s IH]; intros previous;
    simpl; [reflexivity |].
  rewrite cased_to_lower, to_lower_to_lower, to_upper_to_lower, !IH.
  destruct (Str.is_lower c || Str.is_upper c) eqn:E; [reflexivity |].
  apply orb_false_iff in E. destruct E as (_ & E).
  unfold Str.to_lower. now rewrite E.
Qed.

Lemma title_from_unhyphen previous s :
  Str.title_from previous (Str.map unhyphen s) =
  Str.map unhyphen (Str.title_from previous s).
Proof.
  revert previous. induction s as [| c s IH]; intros previous; simpl; [reflexivity |].
  rewrite cased_unhyphen, to_lower_unhyphen, to_upper_unhyphen, !IH.
  destruct (Str.is_lower c || Str.is_upper c), previous; reflexivity.
Qed.

Lemma folder_name_canonical tag :
  folder_name tag = Str.title (Str.lower (Str.replace "-"%char " "%char tag)).
Proof.
  unfold folder_name, Str.title, Str.replace.
  change (fun c : ascii => if Ascii.eqb c "-"%char then " "%char else c) with unhyphen.
  now rewrite title_from_lower, title_from_unhyphen.
Qed.

Lemma unhyphen_has_no_hyphen s : Py.has_char "-"%char (Str.map unhyphen s) = false.
Proof.
  induction s as [| c s IH]; simpl; [reflexivity |].
  now rewrite unhyphen_not_hyphen, IH.
Qed.

(** X14.  On ASCII tags, the display name of a folder depends on its tag only
    up to letter case and up to hyphens standing for spaces, and it never
    contains a hyphen: two raw ASCII tags that differ only that way get two
    folders with the same name. *)
Theorem folder_names_ignore_case_and_hyphens
  openapi_spec tag ops folder tag' ops' folder' :
  is_ascii tag = true ->
  is_ascii tag' = true ->
  build_folder openapi_spec (JStr tag, ops) = Ok folder ->
  build_folder openapi_spec (JStr tag', ops') = Ok folder' ->
  Str.lower (Str.replace "-"%char " "%char tag) =
  Str.lower (Str.replace "-"%char " "%char tag') ->
  field "name" folder = field "name" folder' /\
  exists name,
    field "name" folder = Some (JStr name) /\ Py.has_char "-"%char name = false.
Proof.
  intros _ _ H H' E.
  apply build_folder_ok in H. destruct H as (t & items & Et & _ & ->).
  apply build_folder_ok in H'. destruct H' as (t' & items' & Et' & _ & ->).
  inversion Et; inversion Et'; subst t t'. simpl. split.
  - now rewrite !folder_name_canonical, E.
  - exists (folder_name tag). split; [reflexivity |].
    unfold folder_name, Str.replace.
    change (fun c : ascii => if Ascii.eqb c "-"%char then " "%char else c)
      with unhyphen.
    apply unhyphen_has_no_hyphen.
Qed.

Lemma folder_names_ignore_case_and_hyphens_witness :
  (build_folder (JDict []) (JStr "metrics-API", []) =
     Ok (JDict [("name", JStr "Metrics Api"); ("item", JList [])]) /\
   build_folder (JDict []) (JStr "Metrics api", []) =
     Ok (JDict [("name", JStr "Metrics Api"); ("item", JList [])])) /\
  field "name" (JDict [("name", JStr "Metrics Api"); ("item", JList [])]) =
  field "name" (JDict [("name", JStr "Metrics Api"); ("item", JList [])]) /\
  exists name,
    field "name" (JDict [("name", JStr "Metrics Api"); ("item", JList [])]) =
      Some (JStr name) /\
    Py.has_char "-"%char name = false.
Proof.
  split; [split; reflexivity |].
  apply (@folder_names_ignore_case_and_hyphens
           (JDict []) "metrics-API" [] _ "Metrics api" [] _);
    reflexivity.
Defined.

(** ** What the compiler ignores *)

Lemma for_each_recognized path methods g :
  for_each (add_operation path) (filter (fun e => recognized (fst e)) methods) g =
  for_each (add_operation path) methods g.
Proof.
  revert g. induction methods as [| (method, operation) methods IH]; intros g;
    [reflexivity |].
  change (filter (fun e => recognized (fst e)) ((method, operation) :: methods))
    with (if recognized method
          then (method, operation) :: filter (fun e => recognized (fst e)) methods
          else filter (fun e => recognized (fst e)) methods).
  change (for_each (add_operation path) ((method, operation) :: methods) g)
    with (g' <- add_operation path g (method, operation) ;;
          for_each (add_operation path) methods g').
  destruct (recognized method) eqn:E.
  - change (for_each (add_operation path)
              ((method, operation) :: filter (fun e => recognized (fst e)) methods) g)
      with (g' <- add_operation path g (method, operation) ;;
            for_each (add_operation path)
                     (filter (fun e => recognized (fst e)) methods) g').
    destruct (add_operation path g (method, operation)); simpl;
      [apply IH | reflexivity].
  - assert (Eskip : add_operation path g (method, operation) = Ok g)
      by (unfold add_operation; now rewrite E).
    rewrite Eskip. simpl. apply IH.
Qed.

Lemma add_path_recognized g entry :
  add_path g (recognized_entries entry) = add_path g entry.
Proof.
  destruct entry as (path, methods). unfold recognized_entries, add_path. simpl.
  destruct methods; try reflexivity. simpl. apply for_each_recognized.
Qed.

Lemma for_each_add_path_recognized entries g :
  for_each add_path (List.map recognized_entries entries) g =
  for_each add_path entries g.
Proof.
  revert g. induction entries as [| entry entries IH]; intros g; [reflexivity |].
  change (for_each add_path (List.map recognized_entries (entry :: entries)) g)
    with (g' <- add_path g (recognized_entries entry) ;;
          for_each add_path (List.map recognized_entries entries) g').
  change (for_each add_path (entry :: entries) g)
    with (g' <- add_path g entry ;; for_each add_path entries g').
  rewrite add_path_recognized.
  destruct (add_path g entry); cbn [bind]; [apply IH | reflexivity].
Qed.

(** X15.  Entries of a path item under keys that are not recognized methods
    (path-level [parameters], [summary], vendor extensions) are ignored
    whatever they hold: the document compiles exactly as the document
    without them does, to the same collection or the same exception. *)
Theorem unrecognized_entries_are_ignored d entries :
  Py.assoc "paths" d = Some (JDict entries) ->
  create_postman_collection (JDict d) =
  create_postman_collection
    (JDict (Py.setitem "paths" (JDict (List.map recognized_entries entries)) d)).
Proof.
  intros Hp. unfold create_postman_collection, group_operations. simpl.
  rewrite assoc_setitem_same, Hp. simpl.
  rewrite for_each_add_path_recognized.
  destruct (for_each add_path entries []) as [g | e]; simpl; [| reflexivity].
  rewrite (collect_ext (build_folder (JDict d))
             (build_folder
                (JDict (Py.setitem "paths"
                          (JDict (List.map recognized_entries entries)) d)))).
  - now rewrite (assoc_setitem_other "paths" "info").
  - intros (tag, ops). unfold build_folder.
    rewrite (collect_ext (build_request (JDict d))
               (build_request
                  (JDict (Py.setitem "paths"
                            (JDict (List.map recognized_entries entries)) d))));
      [reflexivity |].
    intros op. apply build_request_any_document.
Qed.

Lemma unrecognized_entries_are_ignored_witness :
  create_postman_collection Samples.interleaved =
  create_postman_collection
    (Samples.document
       [("/metrics", JDict [("get", JDict [Samples.tags ["metrics"]]);
                            ("POST", JDict [Samples.tags ["admin"; "metrics"]])]);
        ("/logs", JDict [("get", JDict [])]);
        ("/metrics/{name}", JDict [("delete", JDict [Samples.tags ["admin"]])])]).
Proof.
  exact (@unrecognized_entries_are_ignored
           [Samples.info;
            ("paths",
             JDict [("/metrics", JDict [("parameters", JList []);
                                        ("get", JDict [Samples.tags ["metrics"]]);
                                        ("POST", JDict [Samples.tags ["admin"; "metrics"]])]);
                    ("/logs", JDict [("get", JDict [])]);
                    ("/metrics/{name}", JDict [("delete", JDict [Samples.tags ["admin"]])])])]
           [("/metrics", JDict [("parameters", JList []);
                                ("get", JDict [Samples.tags ["metrics"]]);
                                ("POST", JDict [Samples.tags ["admin"; "metrics"]])]);
            ("/logs", JDict [("get", JDict [])]);
            ("/metrics/{name}", JDict [("delete", JDict [Samples.tags ["admin"]])])]
           eq_refl).
Defined.

(** X16.  The collection is a function of the [paths] and [info] entries of
    the document alone: two documents that agree on both compile to the same
    result, whatever their [components] or other top-level keys hold. *)
Theorem only_paths_and_info_matter d d' :
  Py.assoc "paths" d = Py.assoc "paths" d' ->
  Py.assoc "info" d = Py.assoc "info" d' ->
  create_postman_collection (JDict d) = create_postman_collection (JDict d').
Proof. intros Hp Hi. exact (compilation_reads_paths_and_info d d' Hp Hi). Qed.

Lemma only_paths_and_info_matter_witness :
  create_postman_collection Samples.two_tags =
  create_postman_collection
    (JDict [("components", Samples.declaring_components);
            Samples.info;
            ("openapi", JStr "3.0.3");
            ("paths", JDict [("/status",
                              JDict [("get", JDict [Samples.tags ["health"; "ops"]])])])]).
Proof.
  apply (@only_paths_and_info_matter
           [Samples.info;
            ("paths", JDict [("/status",
                              JDict [("get", JDict [Samples.tags ["health"; "ops"]])])])]);
    reflexivity.
Defined.

(** X17.  An operation that is not a dictionary (an empty YAML value, a list,
    a string) is never built, and under a recognized method it stops the
    grouping loop with [AttributeError] before any request is built. *)
Theorem non_dictionary_operation_aborts
  path method operation components base_url_vars tag_groups :
  is_dict operation = false ->
  (exists e,
      create_postman_request path method operation components base_url_vars =
      Raise e) /\
  (recognized method = true ->
   add_operation path tag_groups (method, operation) = Raise AttributeError).
Proof.
  intros H. split.
  - unfold create_postman_request.
    destruct (build_query_params operation); simpl; [| eauto].
    destruct (build_headers operation); simpl; [| eauto].
    destruct (build_body operation); simpl; [| eauto].
    destruct operation; try discriminate; simpl; eauto.
  - intros Hr. unfold add_operation. rewrite Hr. simpl.
    destruct operation; try discriminate; reflexivity.
Qed.

Lemma non_dictionary_operation_aborts_witness :
  (exists e, create_postman_request "/logs" "get" JNull (JDict []) (JDict []) = Raise e) /\
  (recognized "get" = true ->
   add_operation "/logs" [] ("get", JNull) = Raise AttributeError).
Proof.
  apply (@non_dictionary_operation_aborts "/logs" "get" JNull (JDict []) (JDict []) []).
  reflexivity.
Defined.
